(** * Feature quantization (catboost/libs/data_new/quantization.cpp)

    A shallow embedding of the quantization driver of CatBoost's [NCB]
    namespace: the subset selection for border building, the border and
    nan-mode calculation of one float feature, the per-feature processing
    of float and categorical columns and the top-level [Do], followed by
    the properties of these functions. *)

From Stdlib Require Import ZArith List Bool Lia.
From Stdlib Require Import Sorting.Sorted Sorting.Permutation.
From Stdlib Require Import Floats.SpecFloat.
From stdpp Require Import base option list sorting relations gmap.

Local Open Scope Z_scope.

(** ** Single precision values

    A C++ [float] is an IEEE-754 binary32 value: [spec_float] with a
    24 bit significand and exponent bound 128.  [operator<] is [SFltb]
    and [operator<=] is [SFleb]; NaN payloads are not told apart. *)

Module Float32.

Definition float := spec_float.

Definition prec : Z := 24.
Definition emax : Z := 128.

Definition valid (x : float) : bool := valid_binary prec emax x.

Definition IsNan (x : float) : bool :=
  match x with
  | S754_nan => true
  | _ => false
  end.

Definition lt (x y : float) : bool := SFltb x y.
Definition leb (x y : float) : bool := SFleb x y.

(** [-0.0f] and [0.0f]. *)
Definition neg_zero : float := S754_zero true.
Definition pos_zero : float := S754_zero false.

(** [std::numeric_limits<float>::lowest()] and [::max()]:
    -(2^24 - 1) * 2^104 and (2^24 - 1) * 2^104. *)
Definition lowest : float := S754_finite true 16777215 104.
Definition max : float := S754_finite false 16777215 104.

#[global] Instance float_eq_dec : EqDecision float.
Proof. unfold float. solve_decision. Defined.

End Float32.

Import Float32.

(** ** Failures

    The checks of quantization.cpp are written with [CB_ENSURE],
    [CB_ENSURE_INTERNAL] and [Y_VERIFY], and [SafeIntegerCast] throws on a
    value that does not fit.  Each failure carries the macro that raised
    it and the condition it reports.  [NullHolder] stands for what the
    source leaves undefined: a task that reads through a column holder
    which holds no column. *)

Inductive EMessage :=
| NansNotAllowed (featureId : nat)
| NanModeAndBordersMismatch (featureId : nat)
| NoCompatibleFormat
| NansInQuantize (featureId : nat).

Inductive TFailure :=
| EnsureFailed (msg : EMessage)
| EnsureInternalFailed (msg : EMessage)
| VerifyFailed
| BadCast
| NullHolder.

Inductive TResult (A : Type) :=
| Done (a : A)
| Failed (f : TFailure).

Arguments Done {A} a.
Arguments Failed {A} f.

#[global] Instance TResult_ret : MRet TResult := fun A a => Done a.

#[global] Instance TResult_bind : MBind TResult := fun A B k m =>
  match m with
  | Done a => k a
  | Failed f => Failed f
  end.

Definition CB_ENSURE (cond : bool) (msg : EMessage) : TResult unit :=
  if cond then Done tt else Failed (EnsureFailed msg).

Definition CB_ENSURE_INTERNAL (cond : bool) (msg : EMessage) : TResult unit :=
  if cond then Done tt else Failed (EnsureInternalFailed msg).

Definition Y_VERIFY (cond : bool) : TResult unit :=
  if cond then Done tt else Failed VerifyFailed.

(** The two kinds of fatal conditions of the error taxonomy. *)
Inductive EErrorKind := InvalidConfiguration | InternalConsistency.

(** Modelled from the spec: the kind of a reported condition.
    [CB_ENSURE] and [CB_ENSURE_INTERNAL] come from
    catboost/libs/helpers/exception.h, which is not part of the sources at
    hand, so the kind is the one the error taxonomy gives the condition:
    no output format requested and a missing value under a forbidden
    policy, met at the borders or while quantizing, are
    invalid-configuration conditions; a nan mode present without borders
    or borders without a nan mode is an internal-consistency condition. *)
Definition MessageKind (msg : EMessage) : EErrorKind :=
  match msg with
  | NoCompatibleFormat | NansNotAllowed _ | NansInQuantize _ =>
      InvalidConfiguration
  | NanModeAndBordersMismatch _ => InternalConsistency
  end.

(** Modelled from the spec: the kind of a failure.  The threshold count
    reaching 256, which is the failure of [Y_VERIFY], is the other
    internal-consistency condition of the taxonomy; a border count that
    does not fit an [int] and a holder without a column are not part of
    it. *)
Definition ErrorKind (f : TFailure) : option EErrorKind :=
  match f with
  | EnsureFailed msg | EnsureInternalFailed msg => Some (MessageKind msg)
  | VerifyFailed => Some InternalConsistency
  | BadCast | NullHolder => None
  end.

(** ** Unsigned arithmetic *)

Definition ui32 (x : Z) : Z := x mod 2 ^ 32.
Definition ui64 (x : Z) : Z := x mod 2 ^ 64.

(** ** Subset indexing (array_subset.h)

    Sizes and row indices are [ui32] in the source; they are only compared
    and used as positions here, so they are natural numbers. *)

Record TSubsetBlock := {
  SrcBegin : nat;
  SrcEnd : nat;
  DstBegin : nat
}.

Inductive TArraySubsetIndexing :=
| TFullSubset (size : nat)
| TRangesSubset (size : nat) (blocks : list TSubsetBlock)
| TIndexedSubset (indices : list nat).

Definition SubsetSize (s : TArraySubsetIndexing) : nat :=
  match s with
  | TFullSubset n => n
  | TRangesSubset n _ => n
  | TIndexedSubset l => length l
  end.

(** The source positions a subset visits, in logical order. *)
Definition SrcIndices (s : TArraySubsetIndexing) : list nat :=
  match s with
  | TFullSubset n => seq 0 n
  | TRangesSubset _ blocks =>
      flat_map (fun b => seq (SrcBegin b) (SrcEnd b - SrcBegin b)) blocks
  | TIndexedSubset l => l
  end.

(** Modelled from the spec: [Compose] of array_subset.h, which is not
    part of the sources at hand.  Composing two subset indexings yields the
    indexing that sends a logical position of the second through the
    first; it is used with positions below the size of the first. *)
Definition Compose (src sub : TArraySubsetIndexing) : TArraySubsetIndexing :=
  TIndexedSubset (map (fun i => nth i (SrcIndices src) 0%nat) (SrcIndices sub)).

(** [TArraySubset::ForEach]: the values of [src] a subset visits. *)
Definition SubsetValues {A} (d : A) (src : list A) (s : TArraySubsetIndexing)
  : list A :=
  map (fun i => nth i src d) (SrcIndices s).

(** ** Columns *)

Inductive EObjectsOrder := Ordered | RandomShuffled | Undefined.

Definition IsRandomShuffled (o : EObjectsOrder) : bool :=
  match o with RandomShuffled => true | _ => false end.

Module ENanMode.
Inductive t := Forbidden | Min | Max.

#[global] Instance eq_dec : EqDecision t.
Proof. solve_decision. Defined.
End ENanMode.

Record TFloatValuesHolder := {
  FloatId : nat;
  FloatSrc : list float;
  FloatSubset : TArraySubsetIndexing
}.

Record THashedCatValuesHolder := {
  CatId : nat;
  CatSrc : list Z;
  CatSubset : TArraySubsetIndexing
}.

Definition FloatArrayData (h : TFloatValuesHolder) : list float :=
  SubsetValues pos_zero (FloatSrc h) (FloatSubset h).

Definition CatArrayData (h : THashedCatValuesHolder) : list Z :=
  SubsetValues 0 (CatSrc h) (CatSubset h).

(** Modelled from the spec: [TIndexHelper<ui64>::CompressedSize], the
    number of 64-bit words that hold [length] keys of [bitsPerKey] bits. *)
Definition CompressedSize (bitsPerKey length : nat) : nat :=
  Nat.div (length * bitsPerKey + 63) 64.

(** A compressed array: the keys it holds, each of [ArrayBitsPerKey]
    bits, packed into [ArrayWords] words of storage. *)
Record TCompressedArray := {
  ArraySize : nat;
  ArrayBitsPerKey : nat;
  ArrayWords : nat;
  ArrayKeys : list Z
}.

(** The two holders of a quantized column.  An external holder keeps the
    source values and, in the source, a pointer to the shared metadata of
    the run, with which its consumer quantizes on demand. *)
Inductive IQuantizedFloatValuesHolder :=
| TExternalFloatValuesHolder
    (id : nat) (src : list float) (subset : TArraySubsetIndexing)
| TQuantizedFloatValuesHolder
    (id : nat) (data : TCompressedArray) (subset : TArraySubsetIndexing).

Inductive IQuantizedCatValuesHolder :=
| TExternalCatValuesHolder
    (id : nat) (src : list Z) (subset : TArraySubsetIndexing)
| TQuantizedCatValuesHolder
    (id : nat) (data : TCompressedArray) (subset : TArraySubsetIndexing).

Definition IsExternalFloat (h : IQuantizedFloatValuesHolder) : bool :=
  match h with TExternalFloatValuesHolder _ _ _ => true | _ => false end.

Definition IsExternalCat (h : IQuantizedCatValuesHolder) : bool :=
  match h with TExternalCatValuesHolder _ _ _ => true | _ => false end.

Definition FloatBitsPerKey (h : IQuantizedFloatValuesHolder) : option nat :=
  match h with
  | TQuantizedFloatValuesHolder _ data _ => Some (ArrayBitsPerKey data)
  | _ => None
  end.

Definition CatBitsPerKey (h : IQuantizedCatValuesHolder) : option nat :=
  match h with
  | TQuantizedCatValuesHolder _ data _ => Some (ArrayBitsPerKey data)
  | _ => None
  end.

(** ** Features layout

    Of [TFeaturesLayout] quantization.cpp uses the number of float and of
    categorical features and which of them are available. *)

Record TFeaturesLayout := {
  FloatFeatureAvailable : list bool;
  CatFeatureAvailable : list bool
}.

Definition GetFloatFeatureCount (l : TFeaturesLayout) : nat :=
  length (FloatFeatureAvailable l).

Definition GetCatFeatureCount (l : TFeaturesLayout) : nat :=
  length (CatFeatureAvailable l).

(** The indices [IterateOverAvailableFeatures] visits, in increasing order. *)
Definition AvailableIndices (flags : list bool) : list nat :=
  filter (fun i => nth i flags false = true) (seq 0 (length flags)).

(** ** Options

    The fields of [TQuantizationOptions] that quantization.cpp reads;
    [CpuRamLimit] is a [ui64]. *)

Record TQuantizationOptions := {
  CpuCompatibleFormat : bool;
  GpuCompatibleFormat : bool;
  CpuRamLimit : Z;
  MaxSubsetSizeForSlowBuildBordersAlgorithms : nat;
  CpuCompatibilityShuffleOverFullData : bool
}.

(** ** Hash sets of floats and sorting *)

(** Modelled from the spec: [THashSet<float>] of util/generic/hash_set.h,
    which is not part of the sources at hand.  The candidate borders are a
    set: a list without repetition whose order stands for the unspecified
    iteration order.  Members are told apart by their bits, so that
    [-0.0f] and [0.0f] can both be members, as the comment on [BestSplit]
    in [CalcBordersAndNanMode] expects. *)
Definition THashSet := list float.

Definition HashSetHas (x : float) (s : THashSet) : bool :=
  bool_decide (x ∈ s).

Definition HashSetErase (x : float) (s : THashSet) : THashSet :=
  filter (fun y => y <> x) s.

Definition HashSetInsert (x : float) (s : THashSet) : THashSet :=
  if HashSetHas x s then s else x :: s.

(** [Sort(begin, end)] with [operator<], as a stable insertion sort. *)
Fixpoint SortInsert (x : float) (l : list float) : list float :=
  match l with
  | [] => [x]
  | y :: l' => if lt x y then x :: y :: l' else y :: SortInsert x l'
  end.

Fixpoint Sort (l : list float) : list float :=
  match l with
  | [] => []
  | x :: l' => SortInsert x (Sort l')
  end.

(** ** Perfect hash of a categorical feature *)

(** Modelled from the spec: one value of the column in
    [UpdatePerfectHashAndMaybeQuantize]; a token that is not in the table
    yet gets the next sequential code. *)
Definition UpdatePerfectHashStep (st : gmap Z Z * list Z) (token : Z)
  : gmap Z Z * list Z :=
  let '(table, codes) := st in
  match table !! token with
  | Some code => (table, codes ++ [code])
  | None =>
      let code := Z.of_nat (size table) in
      (<[token := code]> table, codes ++ [code])
  end.

(** Modelled from the spec: [UpdatePerfectHashAndMaybeQuantize] of
    cat_feature_perfect_hash_helper.h, which is not part of the sources at
    hand.  The table grows over the column in logical order; the codes of
    the column are returned to be written when a destination is given. *)
Definition UpdatePerfectHashAndMaybeQuantize
  (table : gmap Z Z) (values : list Z) (dst : bool)
  : gmap Z Z * option (list Z) :=
  let '(table', codes) := fold_left UpdatePerfectHashStep values (table, []) in
  (table', if dst then Some codes else None).

(** ** Quantization of one float column *)

(** Modelled from the spec: one value in [Quantize].  The bucket of a
    value is the number of borders not above it; a missing value requires
    the nan mode to be other than Forbidden, fails otherwise, and goes to
    the extremal bucket of the mode, the last one under [Max] and bucket 0
    under [Min].  The code is stored as [ui8].  [allowNans], which the
    caller computes and passes, has no part in that description and is
    not read here. *)
Definition QuantizeValue (allowNans : bool) (nanMode : ENanMode.t)
  (featureId : nat) (borders : list float) (value : float) : TResult Z :=
  if IsNan value then
    _ ← CB_ENSURE (negb (bool_decide (nanMode = ENanMode.Forbidden)))
          (NansInQuantize featureId);
    Done (if bool_decide (nanMode = ENanMode.Max)
          then Z.of_nat (length borders) mod 256 else 0)
  else
    Done (Z.of_nat (length (filter (fun b => leb b value = true) borders))
          mod 256).

(** Modelled from the spec: [Quantize] of
    catboost/libs/quantization/utils.h, which is not part of the sources
    at hand, over the values of the column in logical order. *)
Fixpoint Quantize (values : list float) (allowNans : bool)
  (nanMode : ENanMode.t) (featureId : nat) (borders : list float)
  : TResult (list Z) :=
  match values with
  | [] => Done []
  | v :: values' =>
      code ← QuantizeValue allowNans nanMode featureId borders v;
      codes ← Quantize values' allowNans nanMode featureId borders;
      Done (code :: codes)
  end.

(** ** The quantization driver

    The functions of quantization.cpp.  What they call from
    library/grid_creator/binarization.h, catboost/libs/quantization/utils.h
    and util/random is taken as given: the border selection [BestSplit],
    the sample size and memory estimate of a border selection type, and
    the generator behind [TRestorableFastRng64::Uniform]. *)

(** The border selection types are the members of an enumeration of
    library/grid_creator/binarization.h; a value is its numeric code. *)
Definition EBorderSelectionType := nat.

Section Quantization.

Context {TRestorableFastRng64 : Type}.

Variable BestSplit : list float -> nat -> EBorderSelectionType -> THashSet.
Variable GetSampleSizeForBorderSelectionType :
  nat -> EBorderSelectionType -> nat -> nat.
Variable CalcMemoryForFindBestSplit : Z -> nat -> EBorderSelectionType -> Z.
(** [rand->Uniform(n)]: a value and the advanced generator. *)
Variable Uniform : TRestorableFastRng64 -> nat -> nat * TRestorableFastRng64.

(** The binarization options [CalcBordersAndNanMode] reads. *)
Record TBinarizationOptions := {
  BorderSelectionType : EBorderSelectionType;
  BorderCount : nat;
  NanMode : ENanMode.t
}.

(** Modelled from the spec: [TQuantizedFeaturesInfo] of
    quantized_features_info.h, which is not part of the sources at hand.
    The shared metadata holds, per float feature, an optional nan mode and
    an optional list of borders and, per categorical feature, its perfect
    hash; quantization.cpp reads and writes it through the accessors
    below. *)
Record TQuantizedFeaturesInfo := {
  FeaturesLayout : TFeaturesLayout;
  FloatFeatureBinarization : TBinarizationOptions;
  FloatFeaturesAllowNansInTestOnly : bool;
  NanModes : gmap nat ENanMode.t;
  Borders : gmap nat (list float);
  CatFeaturesPerfectHash : gmap nat (gmap Z Z)
}.

Definition HasNanMode (q : TQuantizedFeaturesInfo) (idx : nat) : bool :=
  bool_decide (is_Some (NanModes q !! idx)).

Definition HasBorders (q : TQuantizedFeaturesInfo) (idx : nat) : bool :=
  bool_decide (is_Some (Borders q !! idx)).

Definition GetNanMode (q : TQuantizedFeaturesInfo) (idx : nat) : ENanMode.t :=
  default ENanMode.Forbidden (NanModes q !! idx).

Definition GetBorders (q : TQuantizedFeaturesInfo) (idx : nat) : list float :=
  default [] (Borders q !! idx).

Definition SetNanMode (idx : nat) (m : ENanMode.t) (q : TQuantizedFeaturesInfo)
  : TQuantizedFeaturesInfo :=
  {| FeaturesLayout := FeaturesLayout q;
     FloatFeatureBinarization := FloatFeatureBinarization q;
     FloatFeaturesAllowNansInTestOnly := FloatFeaturesAllowNansInTestOnly q;
     NanModes := <[idx := m]> (NanModes q);
     Borders := Borders q;
     CatFeaturesPerfectHash := CatFeaturesPerfectHash q |}.

Definition SetBorders (idx : nat) (b : list float) (q : TQuantizedFeaturesInfo)
  : TQuantizedFeaturesInfo :=
  {| FeaturesLayout := FeaturesLayout q;
     FloatFeatureBinarization := FloatFeatureBinarization q;
     FloatFeaturesAllowNansInTestOnly := FloatFeaturesAllowNansInTestOnly q;
     NanModes := NanModes q;
     Borders := <[idx := b]> (Borders q);
     CatFeaturesPerfectHash := CatFeaturesPerfectHash q |}.

Definition SetPerfectHash (idx : nat) (t : gmap Z Z) (q : TQuantizedFeaturesInfo)
  : TQuantizedFeaturesInfo :=
  {| FeaturesLayout := FeaturesLayout q;
     FloatFeatureBinarization := FloatFeatureBinarization q;
     FloatFeaturesAllowNansInTestOnly := FloatFeaturesAllowNansInTestOnly q;
     NanModes := NanModes q;
     Borders := Borders q;
     CatFeaturesPerfectHash := <[idx := t]> (CatFeaturesPerfectHash q) |}.

Definition NeedToCalcBorders (q : TQuantizedFeaturesInfo) : bool :=
  existsb (fun idx => negb (HasBorders q idx))
    (AvailableIndices (FloatFeatureAvailable (FeaturesLayout q))).

(** *** GetSubsetForBuildBorders *)

(** [std::swap(v[i], v[j])].  Both positions are inside the vector in the
    source; for a position outside of it the vector is left as it is. *)
Definition SwapAt (v : list nat) (i j : nat) : list nat :=
  match v !! i, v !! j with
  | Some a, Some b => <[j := a]> (<[i := b]> v)
  | _, _ => v
  end.

(** [rand->Uniform(min, max)] is [min + Uniform(max - min)]. *)
Definition UniformRange (rand : TRestorableFastRng64) (min max : nat)
  : nat * TRestorableFastRng64 :=
  let '(x, rand') := Uniform rand (max - min) in ((min + x)%nat, rand').

(** Modelled from the spec: one swap of [Shuffle]. *)
Definition ShuffleStep (st : list nat * TRestorableFastRng64) (i : nat)
  : list nat * TRestorableFastRng64 :=
  let '(v, rand) := st in
  let '(j, rand') := Uniform rand (i + 1) in
  (SwapAt v i j, rand').

(** Modelled from the spec: [Shuffle] of util/random/shuffle.h, which is
    not part of the sources at hand: the Fisher-Yates shuffle of the whole
    range with the supplied generator. *)
Definition Shuffle (v : list nat) (rand : TRestorableFastRng64)
  : list nat * TRestorableFastRng64 :=
  fold_left ShuffleStep (seq 1 (length v - 1)) (v, rand).

(** One round of the loop over [xrange(sampleSize)]. *)
Definition PartialShuffleStep (objectCount : nat)
  (st : list nat * TRestorableFastRng64) (i : nat)
  : list nat * TRestorableFastRng64 :=
  let '(v, rand) := st in
  let '(j, rand') := UniformRange rand i objectCount in
  (SwapAt v i j, rand').

Definition GetSubsetForBuildBorders
  (srcIndexing : TArraySubsetIndexing)
  (quantizedFeaturesInfo : TQuantizedFeaturesInfo)
  (srcObjectsOrder : EObjectsOrder)
  (options : TQuantizationOptions)
  (rand : TRestorableFastRng64)
  : option TArraySubsetIndexing * TRestorableFastRng64 :=
  if NeedToCalcBorders quantizedFeaturesInfo then
    let objectCount := SubsetSize srcIndexing in
    let sampleSize :=
      GetSampleSizeForBorderSelectionType
        objectCount
        (BorderSelectionType (FloatFeatureBinarization quantizedFeaturesInfo))
        (MaxSubsetSizeForSlowBuildBordersAlgorithms options) in
    if (sampleSize <? objectCount)%nat then
      if IsRandomShuffled srcObjectsOrder then
        let blocks :=
          [ {| SrcBegin := 0; SrcEnd := sampleSize; DstBegin := 0 |} ] in
        (Some (Compose srcIndexing (TRangesSubset sampleSize blocks)), rand)
      else
        let randomShuffle := seq 0 objectCount in
        let '(randomShuffle, rand') :=
          if CpuCompatibilityShuffleOverFullData options then
            Shuffle randomShuffle rand
          else
            fold_left (PartialShuffleStep objectCount) (seq 0 sampleSize)
              (randomShuffle, rand) in
        let randomShuffle := take sampleSize randomShuffle in
        (Some (Compose srcIndexing (TIndexedSubset randomShuffle)), rand')
    else (None, rand)
  else (None, rand).

(** *** Memory estimates *)

(** [SafeIntegerCast<int>] of an unsigned value. *)
Definition SafeIntegerCast_int (x : nat) : TResult Z :=
  if Z.of_nat x <=? 2 ^ 31 - 1 then Done (Z.of_nat x) else Failed BadCast.

Definition EstimateMaxMemUsageForFloatFeature
  (objectCount : nat)
  (quantizedFeaturesInfo : TQuantizedFeaturesInfo)
  (options : TQuantizationOptions)
  (clearSrcData : bool) : TResult Z :=
  let result := 0 in
  result ←
    (if NeedToCalcBorders quantizedFeaturesInfo then
       let borderSelectionType :=
         BorderSelectionType (FloatFeatureBinarization quantizedFeaturesInfo) in
       let sampleSize :=
         GetSampleSizeForBorderSelectionType
           objectCount borderSelectionType
           (MaxSubsetSizeForSlowBuildBordersAlgorithms options) in
       let result := ui64 (result + 4 * Z.of_nat sampleSize) in
       borderCount ←
         SafeIntegerCast_int
           (BorderCount (FloatFeatureBinarization quantizedFeaturesInfo));
       Done (ui64 (result +
                   CalcMemoryForFindBestSplit
                     borderCount sampleSize borderSelectionType))
     else Done result);
  Done (if CpuCompatibleFormat options || clearSrcData
        then ui64 (result + 1 * Z.of_nat objectCount)
        else result).

Definition ESTIMATED_FEATURES_PERFECT_HASH_MAP_NODE_SIZE : Z := 32.

Definition EstimateMaxMemUsageForCatFeature
  (objectCount : nat) (options : TQuantizationOptions) (clearSrcData : bool)
  : Z :=
  let result := 0 in
  let result :=
    ui64 (result +
          ui32 (ESTIMATED_FEATURES_PERFECT_HASH_MAP_NODE_SIZE *
                Z.of_nat objectCount)) in
  if CpuCompatibleFormat options || clearSrcData
  then ui64 (result + 4 * Z.of_nat objectCount)
  else result.

(** *** CalcBordersAndNanMode *)

(** The pass over the subset: whether a NaN was seen, and the other
    values in order. *)
Definition CollectValues (values : list float) : bool * list float :=
  (existsb IsNan values, filter (fun v => IsNan v = false) values).

Definition EffectiveNanMode (hasNans : bool) (configured : ENanMode.t)
  : ENanMode.t :=
  if hasNans then configured else ENanMode.Forbidden.

(** [BestSplit] might add negative zeros. *)
Definition NormalizeNegativeZero (borderSet : THashSet) : THashSet :=
  if HashSetHas neg_zero borderSet
  then HashSetInsert pos_zero (HashSetErase neg_zero borderSet)
  else borderSet.

Definition AddNanBorder (nanMode : ENanMode.t) (borders : list float)
  : list float :=
  match nanMode with
  | ENanMode.Min => lowest :: borders
  | ENanMode.Max => borders ++ [max]
  | ENanMode.Forbidden => borders
  end.

Definition CalcBordersAndNanMode
  (srcFeature : TFloatValuesHolder)
  (subsetForBuildBorders : TArraySubsetIndexing)
  (quantizedFeaturesInfo : TQuantizedFeaturesInfo)
  : TResult (ENanMode.t * list float) :=
  let binarizationOptions := FloatFeatureBinarization quantizedFeaturesInfo in
  let srcDataForBuildBorders :=
    SubsetValues pos_zero (FloatSrc srcFeature) subsetForBuildBorders in
  let '(hasNans, srcFeatureValuesForBuildBorders) :=
    CollectValues srcDataForBuildBorders in
  _ ← CB_ENSURE
        (negb (bool_decide (NanMode binarizationOptions = ENanMode.Forbidden))
         || negb hasNans)
        (NansNotAllowed (FloatId srcFeature));
  let nanMode := EffectiveNanMode hasNans (NanMode binarizationOptions) in
  let borderSet :=
    BestSplit srcFeatureValuesForBuildBorders
      (BorderCount binarizationOptions)
      (BorderSelectionType binarizationOptions) in
  let borderSet := NormalizeNegativeZero borderSet in
  let borders := Sort borderSet in
  let borders := AddNanBorder nanMode borders in
  _ ← Y_VERIFY (length borders <? 256)%nat;
  Done (nanMode, borders).

(** Names for the stages of [CalcBordersAndNanMode]: the values of the
    subset, whether one of them is a NaN, the set [BestSplit] returns for
    the others, and the borders before and after the border of the nan
    mode is added. *)
Definition BuildBordersValues
  (srcFeature : TFloatValuesHolder) (subset : TArraySubsetIndexing)
  : list float :=
  SubsetValues pos_zero (FloatSrc srcFeature) subset.

Definition SubsetHasNans
  (srcFeature : TFloatValuesHolder) (subset : TArraySubsetIndexing) : bool :=
  fst (CollectValues (BuildBordersValues srcFeature subset)).

Definition SelectedBorders
  (srcFeature : TFloatValuesHolder) (subset : TArraySubsetIndexing)
  (q : TQuantizedFeaturesInfo) : THashSet :=
  BestSplit (snd (CollectValues (BuildBordersValues srcFeature subset)))
    (BorderCount (FloatFeatureBinarization q))
    (BorderSelectionType (FloatFeatureBinarization q)).

Definition SortedBorders
  (srcFeature : TFloatValuesHolder) (subset : TArraySubsetIndexing)
  (q : TQuantizedFeaturesInfo) : list float :=
  Sort (NormalizeNegativeZero (SelectedBorders srcFeature subset q)).

Definition FinalBorders
  (srcFeature : TFloatValuesHolder) (subset : TArraySubsetIndexing)
  (q : TQuantizedFeaturesInfo) : list float :=
  AddNanBorder
    (EffectiveNanMode (SubsetHasNans srcFeature subset)
       (NanMode (FloatFeatureBinarization q)))
    (SortedBorders srcFeature subset q).

(** *** ProcessFloatFeature *)

(** [!borders] of a [TConstArrayRef]: the view is empty. *)
Definition ArrayRefIsEmpty {A} (r : list A) : bool :=
  match r with [] => true | _ => false end.

Definition ProcessFloatFeature
  (floatFeatureIdx : nat)
  (srcFeature : TFloatValuesHolder)
  (subsetForBuildBorders : TArraySubsetIndexing)
  (options : TQuantizationOptions)
  (clearSrcData : bool)
  (dstSubsetIndexing : TArraySubsetIndexing)
  (quantizedFeaturesInfo : TQuantizedFeaturesInfo)
  : TResult (IQuantizedFloatValuesHolder * TQuantizedFeaturesInfo) :=
  let calculateNanMode := negb (HasNanMode quantizedFeaturesInfo floatFeatureIdx) in
  let nanMode :=
    if HasNanMode quantizedFeaturesInfo floatFeatureIdx
    then GetNanMode quantizedFeaturesInfo floatFeatureIdx
    else ENanMode.Forbidden in
  let borders :=
    if HasBorders quantizedFeaturesInfo floatFeatureIdx
    then GetBorders quantizedFeaturesInfo floatFeatureIdx
    else [] in
  _ ← CB_ENSURE_INTERNAL
        (Bool.eqb calculateNanMode (ArrayRefIsEmpty borders))
        (NanModeAndBordersMismatch (FloatId srcFeature));
  '(nanMode, calculatedBorders, borders) ←
    (if calculateNanMode || ArrayRefIsEmpty borders then
       '(nanMode, calculatedBorders) ←
         CalcBordersAndNanMode srcFeature subsetForBuildBorders
           quantizedFeaturesInfo;
       Done (nanMode, calculatedBorders, calculatedBorders)
     else Done (nanMode, [], borders));
  let srcFeatureData := FloatArrayData srcFeature in
  dstQuantizedFeature ←
    (if negb (CpuCompatibleFormat options) && negb clearSrcData then
       Done (TExternalFloatValuesHolder
               (FloatId srcFeature) (FloatSrc srcFeature) dstSubsetIndexing)
     else
       let bitsPerKey := 8%nat in
       let allowNans :=
         negb (bool_decide (nanMode = ENanMode.Forbidden))
         || FloatFeaturesAllowNansInTestOnly quantizedFeaturesInfo in
       quantizedData ←
         Quantize srcFeatureData allowNans nanMode (FloatId srcFeature) borders;
       Done (TQuantizedFloatValuesHolder
               (FloatId srcFeature)
               {| ArraySize := length srcFeatureData;
                  ArrayBitsPerKey := bitsPerKey;
                  ArrayWords := CompressedSize bitsPerKey (length srcFeatureData);
                  ArrayKeys := quantizedData |}
               dstSubsetIndexing));
  let quantizedFeaturesInfo :=
    if calculateNanMode || negb (ArrayRefIsEmpty calculatedBorders) then
      let q :=
        if calculateNanMode
        then SetNanMode floatFeatureIdx nanMode quantizedFeaturesInfo
        else quantizedFeaturesInfo in
      if negb (ArrayRefIsEmpty calculatedBorders)
      then SetBorders floatFeatureIdx calculatedBorders q
      else q
    else quantizedFeaturesInfo in
  Done (dstQuantizedFeature, quantizedFeaturesInfo).

(** Names for the stages of [ProcessFloatFeature]: the nan mode and the
    borders read from the metadata, the destination holder built for a nan
    mode and borders, and the metadata after the write under the lock. *)
Definition StoredNanMode (q : TQuantizedFeaturesInfo) (idx : nat) : ENanMode.t :=
  if HasNanMode q idx then GetNanMode q idx else ENanMode.Forbidden.

Definition StoredBorders (q : TQuantizedFeaturesInfo) (idx : nat) : list float :=
  if HasBorders q idx then GetBorders q idx else [].

Definition MakeFloatHolder
  (srcFeature : TFloatValuesHolder)
  (options : TQuantizationOptions)
  (clearSrcData : bool)
  (dstSubsetIndexing : TArraySubsetIndexing)
  (q : TQuantizedFeaturesInfo)
  (nanMode : ENanMode.t) (borders : list float)
  : TResult IQuantizedFloatValuesHolder :=
  if negb (CpuCompatibleFormat options) && negb clearSrcData then
    Done (TExternalFloatValuesHolder
            (FloatId srcFeature) (FloatSrc srcFeature) dstSubsetIndexing)
  else
    quantizedData ←
      Quantize (FloatArrayData srcFeature)
        (negb (bool_decide (nanMode = ENanMode.Forbidden))
         || FloatFeaturesAllowNansInTestOnly q)
        nanMode (FloatId srcFeature) borders;
    Done (TQuantizedFloatValuesHolder
            (FloatId srcFeature)
            {| ArraySize := length (FloatArrayData srcFeature);
               ArrayBitsPerKey := 8;
               ArrayWords := CompressedSize 8 (length (FloatArrayData srcFeature));
               ArrayKeys := quantizedData |}
            dstSubsetIndexing).

Definition WriteCalculated
  (idx : nat) (nanMode : ENanMode.t) (calculatedBorders : list float)
  (q : TQuantizedFeaturesInfo) : TQuantizedFeaturesInfo :=
  if ArrayRefIsEmpty calculatedBorders
  then SetNanMode idx nanMode q
  else SetBorders idx calculatedBorders (SetNanMode idx nanMode q).

(** *** ProcessCatFeature *)

Definition ProcessCatFeature
  (catFeatureIdx : nat)
  (srcFeature : THashedCatValuesHolder)
  (options : TQuantizationOptions)
  (clearSrcData : bool)
  (dstSubsetIndexing : TArraySubsetIndexing)
  (quantizedFeaturesInfo : TQuantizedFeaturesInfo)
  : IQuantizedCatValuesHolder * TQuantizedFeaturesInfo :=
  let srcFeatureData := CatArrayData srcFeature in
  let bitsPerKey := 32%nat in
  let storeAsExternalValuesHolder :=
    negb (CpuCompatibleFormat options) && negb clearSrcData in
  let '(table, quantizedDataValue) :=
    UpdatePerfectHashAndMaybeQuantize
      (default ∅ (CatFeaturesPerfectHash quantizedFeaturesInfo !! catFeatureIdx))
      srcFeatureData
      (negb storeAsExternalValuesHolder) in
  let quantizedFeaturesInfo :=
    SetPerfectHash catFeatureIdx table quantizedFeaturesInfo in
  let dstQuantizedFeature :=
    if storeAsExternalValuesHolder then
      TExternalCatValuesHolder
        (CatId srcFeature) (CatSrc srcFeature) dstSubsetIndexing
    else
      TQuantizedCatValuesHolder
        (CatId srcFeature)
        {| ArraySize := length srcFeatureData;
           ArrayBitsPerKey := bitsPerKey;
           ArrayWords := CompressedSize bitsPerKey (length srcFeatureData);
           ArrayKeys := default [] quantizedDataValue |}
        dstSubsetIndexing in
  (dstQuantizedFeature, quantizedFeaturesInfo).

(** *** TQuantizationImpl::Do *)

(** What [Do] reads of the raw data provider: the number of references
    to it, the object count of its grouping, the subset indexing and the
    order of its objects, its features layout and its columns. *)
Record TRawDataProvider := {
  RefCount : nat;
  ObjectCount : nat;
  SubsetIndexing : TArraySubsetIndexing;
  Order : EObjectsOrder;
  RawFeaturesLayout : TFeaturesLayout;
  FloatFeatures : list (option TFloatValuesHolder);
  CatFeatures : list (option THashedCatValuesHolder)
}.

Inductive EWarning :=
| CpuRamUsageOverLimit (cpuRamUsage limit : Z).

(** A task handed to the executor: the feature its closure processes. *)
Inductive TTask :=
| FloatFeatureTask (floatFeatureIdx : nat)
| CatFeatureTask (catFeatureIdx : nat).

(** Modelled from the spec: [TResourceConstrainedExecutor] of
    resource_constrained_executor.h holds a quota of the resource and the
    tasks added to it, each with its estimate of the resource it uses. *)
Record TResourceConstrainedExecutor := {
  ResourceQuota : Z;
  LenientMode : bool;
  Queue : list (Z * TTask)
}.

Definition Add (task : Z * TTask) (e : TResourceConstrainedExecutor)
  : TResourceConstrainedExecutor :=
  {| ResourceQuota := ResourceQuota e;
     LenientMode := LenientMode e;
     Queue := Queue e ++ [task] |}.

(** What the tasks read and write: the shared metadata, the source
    columns (destroyed when the caller owns them alone) and the
    destination slots. *)
Record TQuantizedBuilderData := {
  QuantizedFeaturesInfo : TQuantizedFeaturesInfo;
  SrcFloatFeatures : list (option TFloatValuesHolder);
  SrcCatFeatures : list (option THashedCatValuesHolder);
  DstFloatFeatures : list (option IQuantizedFloatValuesHolder);
  DstCatFeatures : list (option IQuantizedCatValuesHolder)
}.

(** The body of a registered task.  The source reads the column through
    its holder without a check, [*srcFloatFeatureHolder] and
    [*srcCatFeatureHolder]: without a column behind the holder the task
    has no defined outcome, which is the failure [NullHolder] here. *)
Definition RunTask
  (options : TQuantizationOptions)
  (clearSrcData : bool)
  (subsetForBuildBorders : TArraySubsetIndexing)
  (subsetIndexing : TArraySubsetIndexing)
  (data : TQuantizedBuilderData) (task : TTask)
  : TResult TQuantizedBuilderData :=
  match task with
  | FloatFeatureTask floatFeatureIdx =>
      match SrcFloatFeatures data !! floatFeatureIdx with
      | Some (Some srcFloatFeatureHolder) =>
          '(dst, info) ←
            ProcessFloatFeature floatFeatureIdx srcFloatFeatureHolder
              subsetForBuildBorders options clearSrcData subsetIndexing
              (QuantizedFeaturesInfo data);
          Done {| QuantizedFeaturesInfo := info;
                  SrcFloatFeatures :=
                    if clearSrcData
                    then <[floatFeatureIdx := None]> (SrcFloatFeatures data)
                    else SrcFloatFeatures data;
                  SrcCatFeatures := SrcCatFeatures data;
                  DstFloatFeatures :=
                    <[floatFeatureIdx := Some dst]> (DstFloatFeatures data);
                  DstCatFeatures := DstCatFeatures data |}
      | _ => Failed NullHolder
      end
  | CatFeatureTask catFeatureIdx =>
      match SrcCatFeatures data !! catFeatureIdx with
      | Some (Some srcCatFeatureHolder) =>
          let '(dst, info) :=
            ProcessCatFeature catFeatureIdx srcCatFeatureHolder options
              clearSrcData subsetIndexing (QuantizedFeaturesInfo data) in
          Done {| QuantizedFeaturesInfo := info;
                  SrcFloatFeatures := SrcFloatFeatures data;
                  SrcCatFeatures :=
                    if clearSrcData
                    then <[catFeatureIdx := None]> (SrcCatFeatures data)
                    else SrcCatFeatures data;
                  DstFloatFeatures := DstFloatFeatures data;
                  DstCatFeatures :=
                    <[catFeatureIdx := Some dst]> (DstCatFeatures data) |}
      | _ => Failed NullHolder
      end
  end.

(** [ExecTasks] runs every task of the queue; the tasks of different
    features touch different entries of the metadata and different slots,
    and are run here one after the other in the order they were added. *)
Fixpoint ExecTasks
  (run : TQuantizedBuilderData -> TTask -> TResult TQuantizedBuilderData)
  (queue : list (Z * TTask)) (data : TQuantizedBuilderData)
  : TResult TQuantizedBuilderData :=
  match queue with
  | [] => Done data
  | (_, task) :: queue' =>
      data' ← run data task;
      ExecTasks run queue' data'
  end.

Record TQuantizedDataProvider := {
  ForCPU : bool;
  Data : TQuantizedBuilderData;
  QuantizedSubsetIndexing : TArraySubsetIndexing;
  Executor : TResourceConstrainedExecutor;
  WarningLog : list EWarning;
  Rand : TRestorableFastRng64
}.

(** The executor [Do] builds before the tasks are added. *)
Definition MakeExecutor (options : TQuantizationOptions) (cpuRamUsage : Z)
  : TResourceConstrainedExecutor :=
  {| ResourceQuota := ui64 (CpuRamLimit options - cpuRamUsage);
     LenientMode := true;
     Queue := [] |}.

Definition RamWarning (options : TQuantizationOptions) (cpuRamUsage : Z)
  : list EWarning :=
  if CpuRamLimit options <? cpuRamUsage
  then [CpuRamUsageOverLimit cpuRamUsage (CpuRamLimit options)]
  else [].

(** [cpuRamUsage] is the resident set size [NMemInfo::GetMemInfo().RSS]
    reports when [Do] reads it. *)
Definition Do
  (options : TQuantizationOptions)
  (rawDataProvider : TRawDataProvider)
  (quantizedFeaturesInfo : TQuantizedFeaturesInfo)
  (rand : TRestorableFastRng64)
  (cpuRamUsage : Z)
  : TResult TQuantizedDataProvider :=
  _ ← CB_ENSURE_INTERNAL
        (CpuCompatibleFormat options || GpuCompatibleFormat options)
        NoCompatibleFormat;
  let clearSrcData := (RefCount rawDataProvider =? 1)%nat in
  let subsetIndexing := TFullSubset (ObjectCount rawDataProvider) in
  let featuresLayout := RawFeaturesLayout rawDataProvider in
  let '(subsetForBuildBorders, rand) :=
    GetSubsetForBuildBorders (SubsetIndexing rawDataProvider)
      quantizedFeaturesInfo (Order rawDataProvider) options rand in
  let log := RamWarning options cpuRamUsage in
  let resourceConstrainedExecutor := MakeExecutor options cpuRamUsage in
  maxMemUsageForFloatFeature ←
    EstimateMaxMemUsageForFloatFeature (ObjectCount rawDataProvider)
      quantizedFeaturesInfo options clearSrcData;
  let resourceConstrainedExecutor :=
    fold_left
      (fun e idx => Add (maxMemUsageForFloatFeature, FloatFeatureTask idx) e)
      (AvailableIndices (FloatFeatureAvailable featuresLayout))
      resourceConstrainedExecutor in
  let maxMemUsageForCatFeature :=
    EstimateMaxMemUsageForCatFeature (ObjectCount rawDataProvider)
      options clearSrcData in
  let resourceConstrainedExecutor :=
    fold_left
      (fun e idx => Add (maxMemUsageForCatFeature, CatFeatureTask idx) e)
      (AvailableIndices (CatFeatureAvailable featuresLayout))
      resourceConstrainedExecutor in
  let data :=
    {| QuantizedFeaturesInfo := quantizedFeaturesInfo;
       SrcFloatFeatures := FloatFeatures rawDataProvider;
       SrcCatFeatures := CatFeatures rawDataProvider;
       DstFloatFeatures :=
         replicate (GetFloatFeatureCount featuresLayout) None;
       DstCatFeatures :=
         replicate (GetCatFeatureCount featuresLayout) None |} in
  data ←
    ExecTasks
      (RunTask options clearSrcData
         (default (SubsetIndexing rawDataProvider) subsetForBuildBorders)
         subsetIndexing)
      (Queue resourceConstrainedExecutor) data;
  Done {| ForCPU := CpuCompatibleFormat options;
          Data := data;
          QuantizedSubsetIndexing := subsetIndexing;
          Executor := resourceConstrainedExecutor;
          WarningLog := log;
          Rand := rand |}.

(** The queue of the executor once [Do] has added the task of every
    available float feature and of every available categorical feature. *)
Definition RegisteredTasks
  (featuresLayout : TFeaturesLayout)
  (maxMemUsageForFloatFeature maxMemUsageForCatFeature : Z)
  : list (Z * TTask) :=
  map (fun idx => (maxMemUsageForFloatFeature, FloatFeatureTask idx))
    (AvailableIndices (FloatFeatureAvailable featuresLayout)) ++
  map (fun idx => (maxMemUsageForCatFeature, CatFeatureTask idx))
    (AvailableIndices (CatFeatureAvailable featuresLayout)).

(** *** The memory-budgeted scheduler *)

(** Modelled from the spec: the state of the scheduler behind [ExecTasks]
    of resource_constrained_executor.h, which is not part of the sources
    at hand: the tasks that are ready, in flight and finished. *)
Record TSchedulerState := {
  Ready : list (Z * TTask);
  InFlight : list (Z * TTask);
  Finished : list (Z * TTask)
}.

Definition Usage (tasks : list (Z * TTask)) : Z :=
  fold_right (fun t acc => fst t + acc) 0 tasks.

Definition InitialState (e : TResourceConstrainedExecutor) : TSchedulerState :=
  {| Ready := Queue e; InFlight := []; Finished := [] |}.

(** Modelled from the spec: the moves of the scheduler.  A ready task is
    admitted while the estimates of the tasks in flight, with its own,
    stay within the quota; a task whose estimate alone is above the quota
    is admitted when no other task is in flight; a task in flight
    completes at any time. *)
Inductive SchedulerStep (quota : Z) : TSchedulerState -> TSchedulerState -> Prop :=
| StepAdmit before task after inFlight finished :
    Usage inFlight + fst task <= quota ->
    SchedulerStep quota
      {| Ready := before ++ task :: after;
         InFlight := inFlight; Finished := finished |}
      {| Ready := before ++ after;
         InFlight := task :: inFlight; Finished := finished |}
| StepAdmitOversized before task after finished :
    quota < fst task ->
    SchedulerStep quota
      {| Ready := before ++ task :: after;
         InFlight := []; Finished := finished |}
      {| Ready := before ++ after;
         InFlight := [task]; Finished := finished |}
| StepComplete ready before task after finished :
    SchedulerStep quota
      {| Ready := ready;
         InFlight := before ++ task :: after; Finished := finished |}
      {| Ready := ready;
         InFlight := before ++ after; Finished := task :: finished |}.

(** The tasks in flight respect the quota, or a single task whose
    estimate is above the quota runs alone. *)
Definition WithinQuota (quota : Z) (s : TSchedulerState) : Prop :=
  Usage (InFlight s) <= quota \/
  exists task, InFlight s = [task] /\ quota < fst task.

(** The number of steps a state has left at most. *)
Definition StepsLeft (s : TSchedulerState) : nat :=
  (2 * length (Ready s) + length (InFlight s))%nat.

(** ** Sample collaborators and inputs

    Concrete stand-ins on which the functions are run: a border selection
    that puts a border at the midpoint of two neighbouring values of the
    sorted sample, computed in single precision as [(a + b) * 0.5f]; a
    sample size that is the object count capped by the configured
    maximum; a memory estimate of eight bytes per sampled value; and a
    generator that steps a counter. *)

Definition half : float := S754_finite false 8388608 (-24).
Definition one : float := S754_finite false 8388608 (-23).
Definition two : float := S754_finite false 8388608 (-22).
Definition three : float := S754_finite false 12582912 (-22).

Definition Midpoint (a b : float) : float :=
  SFmul prec emax (SFadd prec emax a b) half.

Fixpoint Midpoints (sorted : list float) : list float :=
  match sorted with
  | a :: (b :: _) as rest =>
      if lt a b then Midpoint a b :: Midpoints rest else Midpoints rest
  | _ => []
  end.

Definition MidpointBestSplit
  (values : list float) (borderCount : nat) (_ : EBorderSelectionType)
  : THashSet :=
  take borderCount (remove_dups (Midpoints (Sort values))).

Definition SampleSizeAtMost
  (objectCount : nat) (_ : EBorderSelectionType) (maxSubsetSize : nat) : nat :=
  Nat.min objectCount maxSubsetSize.

Definition MemoryPerSample
  (borderCount : Z) (sampleSize : nat) (_ : EBorderSelectionType) : Z :=
  8 * Z.of_nat sampleSize.

Definition CounterUniform (state n : nat) : nat * nat :=
  ((7 * state + 3) mod n, S state)%nat.


(** A border selection that returns 256 borders: the numbers 1 to 256 as
    floats with exponent 0. *)
Definition ManyBorders
  (values : list float) (borderCount : nat) (_ : EBorderSelectionType)
  : THashSet :=
  map (fun m => S754_finite false (Pos.of_nat m) 0) (seq 1 256).

(** One float feature and one categorical feature, both available. *)
Definition SampleLayout : TFeaturesLayout :=
  {| FloatFeatureAvailable := [true]; CatFeatureAvailable := [true] |}.

Definition SampleInfo (nanMode : ENanMode.t) (allowNans : bool)
  (nanModes : gmap nat ENanMode.t) (borders : gmap nat (list float))
  : TQuantizedFeaturesInfo :=
  {| FeaturesLayout := SampleLayout;
     FloatFeatureBinarization :=
       {| BorderSelectionType := 0%nat;
          BorderCount := 4;
          NanMode := nanMode |};
     FloatFeaturesAllowNansInTestOnly := allowNans;
     NanModes := nanModes;
     Borders := borders;
     CatFeaturesPerfectHash := ∅ |}.

Definition SampleFloatFeature (values : list float) : TFloatValuesHolder :=
  {| FloatId := 0%nat;
     FloatSrc := values;
     FloatSubset := TFullSubset (length values) |}.

Definition SampleCatFeature (values : list Z) : THashedCatValuesHolder :=
  {| CatId := 1%nat;
     CatSrc := values;
     CatSubset := TFullSubset (length values) |}.

Definition SampleOptions (cpu gpu : bool) (limit : Z) (maxSubsetSize : nat)
  : TQuantizationOptions :=
  {| CpuCompatibleFormat := cpu;
     GpuCompatibleFormat := gpu;
     CpuRamLimit := limit;
     MaxSubsetSizeForSlowBuildBordersAlgorithms := maxSubsetSize;
     CpuCompatibilityShuffleOverFullData := false |}.

Definition SampleRaw (refCount : nat) (order : EObjectsOrder)
  (values : list float) (tokens : list Z) : TRawDataProvider :=
  {| RefCount := refCount;
     ObjectCount := length values;
     SubsetIndexing := TFullSubset (length values);
     Order := order;
     RawFeaturesLayout := SampleLayout;
     FloatFeatures := [Some (SampleFloatFeature values)];
     CatFeatures := [Some (SampleCatFeature tokens)] |}.

(** ** Readers of the holders *)

Definition FloatHolderId (h : IQuantizedFloatValuesHolder) : nat :=
  match h with
  | TExternalFloatValuesHolder id _ _ => id
  | TQuantizedFloatValuesHolder id _ _ => id
  end.

Definition FloatHolderSubset (h : IQuantizedFloatValuesHolder)
  : TArraySubsetIndexing :=
  match h with
  | TExternalFloatValuesHolder _ _ subset => subset
  | TQuantizedFloatValuesHolder _ _ subset => subset
  end.

Definition CatHolderId (h : IQuantizedCatValuesHolder) : nat :=
  match h with
  | TExternalCatValuesHolder id _ _ => id
  | TQuantizedCatValuesHolder id _ _ => id
  end.

Definition CatHolderSubset (h : IQuantizedCatValuesHolder)
  : TArraySubsetIndexing :=
  match h with
  | TExternalCatValuesHolder _ _ subset => subset
  | TQuantizedCatValuesHolder _ _ subset => subset
  end.

(** The failures a feature task can end in, each about the column with
    the given id. *)
Definition IsFeatureFailure (featureId : nat) (f : TFailure) : Prop :=
  f = EnsureInternalFailed (NanModeAndBordersMismatch featureId) \/
  f = EnsureFailed (NansNotAllowed featureId) \/
  f = VerifyFailed \/
  f = EnsureFailed (NansInQuantize featureId).

(** The sample metadata with a given border count and nothing stored. *)
Definition SampleInfoWithBorderCount (borderCount : nat)
  : TQuantizedFeaturesInfo :=
  {| FeaturesLayout := SampleLayout;
     FloatFeatureBinarization :=
       {| BorderSelectionType := 0%nat;
          BorderCount := borderCount;
          NanMode := ENanMode.Min |};
     FloatFeaturesAllowNansInTestOnly := false;
     NanModes := ∅;
     Borders := ∅;
     CatFeaturesPerfectHash := ∅ |}.

#[global] Instance TTask_eq_dec : EqDecision TTask.
Proof. solve_decision. Defined.

(** The swaps of the loop over [xrange(sampleSize)] of
    [GetSubsetForBuildBorders], in order: the position [i] of the round
    and the position [rand->Uniform(i, objectCount)] it is exchanged
    with. *)
Fixpoint PartialShuffleSwaps
  (objectCount : nat) (steps : list nat) (rand : TRestorableFastRng64)
  : list (nat * nat) :=
  match steps with
  | [] => []
  | i :: steps' =>
      let '(j, rand') := UniformRange rand i objectCount in
      (i, j) :: PartialShuffleSwaps objectCount steps' rand'
  end.

(** ** Predicates of the statements *)

(** [x < y] holds. *)
Definition ltP (x y : float) : Prop := lt x y = true.


(** A property of the destination slots that every task keeps. *)
Definition SlotsSatisfy
  (PF : IQuantizedFloatValuesHolder -> Prop)
  (PC : IQuantizedCatValuesHolder -> Prop)
  (data : TQuantizedBuilderData) : Prop :=
  (forall idx h, DstFloatFeatures data !! idx = Some (Some h) -> PF h) /\
  (forall idx h, DstCatFeatures data !! idx = Some (Some h) -> PC h).

(** The holder of a float feature is as the options and the ownership of
    the source ask: external exactly when the CPU format is not requested
    and the source is kept, and a compressed array of 8-bit keys
    otherwise. *)
Definition FloatHolderAsRequested
  (options : TQuantizationOptions) (clearSrcData : bool)
  (h : IQuantizedFloatValuesHolder) : Prop :=
  (IsExternalFloat h = true <->
   CpuCompatibleFormat options = false /\ clearSrcData = false) /\
  (IsExternalFloat h = false -> FloatBitsPerKey h = Some 8%nat).

(** The same for a categorical feature, with 32-bit keys. *)
Definition CatHolderAsRequested
  (options : TQuantizationOptions) (clearSrcData : bool)
  (h : IQuantizedCatValuesHolder) : Prop :=
  (IsExternalCat h = true <->
   CpuCompatibleFormat options = false /\ clearSrcData = false) /\
  (IsExternalCat h = false -> CatBitsPerKey h = Some 32%nat).

(** The nan mode [ProcessFloatFeature] hands to [Quantize]: the stored
    one, or the one calculated when none is stored. *)
Definition QuantizationNanMode
  (idx : nat) (srcFeature : TFloatValuesHolder)
  (subset : TArraySubsetIndexing) (q : TQuantizedFeaturesInfo) : ENanMode.t :=
  if HasNanMode q idx then GetNanMode q idx
  else EffectiveNanMode (SubsetHasNans srcFeature subset)
         (NanMode (FloatFeatureBinarization q)).


(** ** Properties *)

(** *** The order of floats *)

Ltac cmp_cases :=
  repeat match goal with
    | |- context [Z.compare ?a ?b] =>
        destruct (Z.compare_spec a b); subst; simpl
    | H : context [Z.compare ?a ?b] |- _ =>
        destruct (Z.compare_spec a b); subst; simpl in H
    | |- context [Pos.compare_cont Eq ?a ?b] =>
        change (Pos.compare_cont Eq a b) with (Pos.compare a b);
        destruct (Pos.compare_spec a b); subst; simpl
    | H : context [Pos.compare_cont Eq ?a ?b] |- _ =>
        change (Pos.compare_cont Eq a b) with (Pos.compare a b) in H;
        destruct (Pos.compare_spec a b); subst; simpl in H
    end.

Lemma float_lt_irrefl x : lt x x = false.
Proof.
  unfold lt, SFltb.
  destruct x as [[]|[]| |[] m e]; simpl; try reflexivity;
    rewrite Z.compare_refl, Pos.compare_cont_refl; reflexivity.
Qed.

Lemma float_lt_trans x y z : ltP x y -> ltP y z -> ltP x z.
Proof.
  unfold ltP, lt, SFltb.
  destruct x as [[]|[]| |[] m1 e1], y as [[]|[]| |[] m2 e2],
    z as [[]|[]| |[] m3 e3]; simpl; try congruence;
    intros; cmp_cases; try congruence; try lia.
Qed.

Lemma float_lt_asym x y : ltP x y -> lt y x = false.
Proof.
  intros H. destruct (lt y x) eqn:E; [|reflexivity].
  pose proof (float_lt_trans _ _ _ H E) as F.
  unfold ltP in F. rewrite float_lt_irrefl in F. discriminate.
Qed.



(** The floats used as borders of the nan modes and in the samples are
    binary32 values. *)
Lemma sample_floats_valid :
  Forall (fun x => valid x = true)
    [lowest; max; neg_zero; pos_zero; half; one; two; three].
Proof. repeat constructor. Qed.

(** *** Sorting *)

Lemma SortInsert_perm x l : Permutation (SortInsert x l) (x :: l).
Proof.
  induction l as [|y l IH]; simpl; [reflexivity|].
  destruct (lt x y); [reflexivity|].
  rewrite IH. apply perm_swap.
Qed.

Lemma Sort_perm l : Permutation (Sort l) l.
Proof.
  induction l as [|x l IH]; simpl; [reflexivity|].
  rewrite SortInsert_perm. by constructor.
Qed.



(** *** The negative zero *)

Lemma HashSetHas_true x s : HashSetHas x s = true <-> x ∈ s.
Proof. unfold HashSetHas. apply bool_decide_eq_true. Qed.

Lemma HashSetErase_elem x y s : y ∈ HashSetErase x s <-> y <> x /\ y ∈ s.
Proof. unfold HashSetErase. rewrite list_elem_of_filter. tauto. Qed.





(** *** CalcBordersAndNanMode *)

Lemma CalcBordersAndNanMode_cases srcFeature subset q :
  CalcBordersAndNanMode srcFeature subset q =
  if bool_decide (NanMode (FloatFeatureBinarization q) = ENanMode.Forbidden)
     && SubsetHasNans srcFeature subset
  then Failed (EnsureFailed (NansNotAllowed (FloatId srcFeature)))
  else if (length (FinalBorders srcFeature subset q) <? 256)%nat
  then Done (EffectiveNanMode (SubsetHasNans srcFeature subset)
               (NanMode (FloatFeatureBinarization q)),
             FinalBorders srcFeature subset q)
  else Failed VerifyFailed.
Proof.
  unfold CalcBordersAndNanMode, FinalBorders, SortedBorders, SelectedBorders,
    SubsetHasNans, BuildBordersValues, CollectValues. simpl.
  destruct (bool_decide _), (existsb _ _); simpl; try reflexivity;
    destruct (_ <? _)%nat; reflexivity.
Qed.

(** C1. For the column [CalcBordersAndNanMode] is given: when a value of
    the subset is a NaN and the configured nan mode is Forbidden, the
    calculation fails by [CB_ENSURE], an invalid-configuration failure;
    when it returns, the nan mode it yields is Forbidden if the subset
    holds no NaN and the configured mode otherwise; and it does return
    whenever neither that check nor the bound on the borders fails. *)
Theorem CalcBordersAndNanMode_nan_mode srcFeature subset q :
  let configured := NanMode (FloatFeatureBinarization q) in
  let hasNans := existsb IsNan (BuildBordersValues srcFeature subset) in
  (hasNans = true -> configured = ENanMode.Forbidden ->
   CalcBordersAndNanMode srcFeature subset q
     = Failed (EnsureFailed (NansNotAllowed (FloatId srcFeature))) /\
   ErrorKind (EnsureFailed (NansNotAllowed (FloatId srcFeature)))
     = Some InvalidConfiguration) /\
  (forall nanMode borders,
     CalcBordersAndNanMode srcFeature subset q = Done (nanMode, borders) ->
     nanMode = if hasNans then configured else ENanMode.Forbidden) /\
  (~ (hasNans = true /\ configured = ENanMode.Forbidden) ->
   (length (FinalBorders srcFeature subset q) < 256)%nat ->
   exists borders,
     CalcBordersAndNanMode srcFeature subset q
       = Done (if hasNans then configured else ENanMode.Forbidden, borders)).
Proof.
  intros configured hasNans.
  rewrite CalcBordersAndNanMode_cases.
  change (SubsetHasNans srcFeature subset) with hasNans.
  fold configured. unfold EffectiveNanMode.
  split; [|split].
  - intros -> ->. split; reflexivity.
  - intros nanMode borders.
    destruct (bool_decide _ && hasNans); [discriminate|].
    destruct (_ <? _)%nat; [|discriminate]. by intros [= <- _].
  - intros Hok Hlen.
    destruct (bool_decide_reflect (configured = ENanMode.Forbidden)) as [Hc|Hc];
      destruct hasNans eqn:Hn; simpl; try (exfalso; apply Hok; by split);
      (apply Nat.ltb_lt in Hlen; rewrite Hlen; eauto).
Qed.

(** C6. The borders [CalcBordersAndNanMode] returns, the border of the
    nan mode included, are fewer than 256; when the check on missing
    values passes and the count reaches 256, the calculation ends in the
    failure of [Y_VERIFY], an internal-consistency failure and not the
    failure raised for the user. *)
Theorem CalcBordersAndNanMode_border_count srcFeature subset q :
  (forall nanMode borders,
     CalcBordersAndNanMode srcFeature subset q = Done (nanMode, borders) ->
     borders = FinalBorders srcFeature subset q /\
     (length borders < 256)%nat) /\
  (CalcBordersAndNanMode srcFeature subset q
     <> Failed (EnsureFailed (NansNotAllowed (FloatId srcFeature))) ->
   (256 <= length (FinalBorders srcFeature subset q))%nat ->
   CalcBordersAndNanMode srcFeature subset q = Failed VerifyFailed /\
   ErrorKind VerifyFailed = Some InternalConsistency /\
   ErrorKind VerifyFailed <> Some InvalidConfiguration).
Proof.
  rewrite CalcBordersAndNanMode_cases. split.
  - intros nanMode borders.
    destruct (_ && _); [discriminate|].
    destruct (_ <? _)%nat eqn:E; [|discriminate].
    intros [= _ <-]. split; [reflexivity|by apply Nat.ltb_lt].
  - intros Hpass Hlen.
    destruct (_ && _); [contradiction|].
    destruct (_ <? _)%nat eqn:E; [apply Nat.ltb_lt in E; lia|].
    repeat split; discriminate.
Qed.



(** *** GetSubsetForBuildBorders *)

Lemma SwapAt_perm v i j : SwapAt v i j ≡ₚ v.
Proof.
  unfold SwapAt. destruct (v !! i) as [a|] eqn:Hi; [|reflexivity].
  destruct (v !! j) as [b|] eqn:Hj; [|reflexivity].
  by apply Permutation_insert_swap.
Qed.

Lemma PartialShuffle_perm objectCount steps v rand :
  (fold_left (PartialShuffleStep objectCount) steps (v, rand)).1 ≡ₚ v.
Proof.
  revert v rand. induction steps as [|i steps IH]; intros v rand; simpl;
    [reflexivity|].
  destruct (UniformRange rand i objectCount) as [j rand'].
  rewrite IH. apply SwapAt_perm.
Qed.

Lemma ShuffleSteps_perm steps v rand :
  (fold_left ShuffleStep steps (v, rand)).1 ≡ₚ v.
Proof.
  revert v rand. induction steps as [|i steps IH]; intros v rand; simpl;
    [reflexivity|].
  destruct (Uniform rand (i + 1)) as [j rand'].
  rewrite IH. apply SwapAt_perm.
Qed.

Lemma Shuffle_perm v rand : (Shuffle v rand).1 ≡ₚ v.
Proof. apply ShuffleSteps_perm. Qed.

(** A prefix of a rearrangement of the positions below [n]. *)
Lemma take_of_positions n k v :
  v ≡ₚ seq 0 n -> (k < n)%nat ->
  length (take k v) = k /\ NoDup (take k v) /\
  Forall (fun i => (i < n)%nat) (take k v).
Proof.
  intros Hp Hk.
  assert (length v = n) as Hlen by by rewrite Hp, length_seq.
  split; [rewrite length_take; lia|].
  split.
  - eapply sublist_NoDup; [|apply sublist_take].
    rewrite Hp. apply NoDup_seq.
  - apply Forall_forall. intros i Hi.
    apply elem_of_sublist with (l2 := v) in Hi; [|apply sublist_take].
    rewrite Hp in Hi. apply elem_of_seq in Hi. lia.
Qed.

Lemma Compose_indices src sub :
  SrcIndices (Compose src sub)
  = map (fun i => nth i (SrcIndices src) 0%nat) (SrcIndices sub).
Proof. reflexivity. Qed.

Lemma Compose_size src sub :
  SubsetSize (Compose src sub) = length (SrcIndices sub).
Proof. unfold Compose. simpl. by rewrite length_map. Qed.

Lemma map_nth_prefix (l : list nat) k :
  (k <= length l)%nat ->
  map (fun i => nth i l 0%nat) (seq 0 k) = take k l.
Proof.
  intros Hk. apply list_eq. intros i.
  rewrite list_lookup_fmap.
  destruct (decide (i < k)%nat) as [Hi|Hi].
  - rewrite lookup_seq_lt by done. rewrite lookup_take_lt by done. simpl.
    destruct (l !! i) as [x|] eqn:E.
    + f_equal. by apply nth_lookup_Some with (d := 0%nat) in E.
    + apply lookup_ge_None in E. lia.
  - rewrite lookup_seq_ge by lia. rewrite lookup_take_ge by lia. done.
Qed.

(** C2. With [N] rows behind the source indexing and the sample size
    [S], which the function computes when an available float feature
    lacks borders: [S >= N] gives no subset (the full set is used),
    [S < N] on a randomly shuffled source gives the first [S] logical
    rows, and [S < N] otherwise gives [S] distinct logical rows; each
    subset is the source indexing composed with the logical rows chosen.
    When no available float feature lacks borders no sample size is
    computed and no subset is given. *)
Theorem GetSubsetForBuildBorders_subset srcIndexing q order options rand :
  let N := SubsetSize srcIndexing in
  let S :=
    GetSampleSizeForBorderSelectionType N
      (BorderSelectionType (FloatFeatureBinarization q))
      (MaxSubsetSizeForSlowBuildBordersAlgorithms options) in
  length (SrcIndices srcIndexing) = N ->
  (NeedToCalcBorders q = false ->
   GetSubsetForBuildBorders srcIndexing q order options rand = (None, rand)) /\
  (NeedToCalcBorders q = true ->
   ((N <= S)%nat ->
    GetSubsetForBuildBorders srcIndexing q order options rand = (None, rand)) /\
   ((S < N)%nat -> order = RandomShuffled ->
    exists subset,
      GetSubsetForBuildBorders srcIndexing q order options rand
        = (Some subset, rand) /\
      subset =
        Compose srcIndexing
          (TRangesSubset S
             [ {| SrcBegin := 0; SrcEnd := S; DstBegin := 0 |} ]) /\
      SrcIndices subset = take S (SrcIndices srcIndexing) /\
      SubsetSize subset = S) /\
   ((S < N)%nat -> order <> RandomShuffled ->
    exists rows rand',
      GetSubsetForBuildBorders srcIndexing q order options rand
        = (Some (Compose srcIndexing (TIndexedSubset rows)), rand') /\
      length rows = S /\ NoDup rows /\
      Forall (fun i => (i < N)%nat) rows /\
      SubsetSize (Compose srcIndexing (TIndexedSubset rows)) = S /\
      SrcIndices (Compose srcIndexing (TIndexedSubset rows))
        = map (fun i => nth i (SrcIndices srcIndexing) 0%nat) rows)).
Proof.
  intros N S Hwf. unfold GetSubsetForBuildBorders. fold N. fold S.
  split; [by intros ->|]. intros ->.
  split; [|split].
  - intros Hle. by rewrite (proj2 (Nat.ltb_ge S N) Hle).
  - intros Hlt ->. rewrite (proj2 (Nat.ltb_lt S N) Hlt). simpl.
    eexists. split; [reflexivity|].
    split; [reflexivity|].
    unfold Compose. simpl. rewrite Nat.sub_0_r, app_nil_r.
    split; [apply map_nth_prefix; lia|].
    by rewrite length_map, length_seq.
  - intros Hlt Hord. rewrite (proj2 (Nat.ltb_lt S N) Hlt).
    assert (IsRandomShuffled order = false) as -> by by destruct order.
    set (st := if CpuCompatibilityShuffleOverFullData options
               then Shuffle (seq 0 N) rand
               else fold_left (PartialShuffleStep N) (seq 0 S) (seq 0 N, rand)).
    assert (st.1 ≡ₚ seq 0 N) as Hp.
    { unfold st. destruct (CpuCompatibilityShuffleOverFullData options);
        [apply Shuffle_perm|apply PartialShuffle_perm]. }
    destruct st as [v rand']. simpl in Hp.
    destruct (take_of_positions N S v Hp Hlt) as (Hlen & Hnd & Hall).
    exists (take S v), rand'.
    split; [reflexivity|].
    split; [exact Hlen|]. split; [exact Hnd|]. split; [exact Hall|].
    split; [by rewrite Compose_size|reflexivity].
Qed.

(** *** ProcessFloatFeature *)

(** The three ways through [ProcessFloatFeature]: the presence check
    fails; nothing is stored and both values are calculated and written;
    both values are stored and used. *)
Lemma ProcessFloatFeature_cases idx srcFeature subset options clear dst q :
  ProcessFloatFeature idx srcFeature subset options clear dst q =
  if negb (Bool.eqb (negb (HasNanMode q idx))
             (ArrayRefIsEmpty (StoredBorders q idx)))
  then Failed (EnsureInternalFailed
                 (NanModeAndBordersMismatch (FloatId srcFeature)))
  else if HasNanMode q idx then
    holder ← MakeFloatHolder srcFeature options clear dst q
               (GetNanMode q idx) (StoredBorders q idx);
    Done (holder, q)
  else
    '(nanMode, borders) ← CalcBordersAndNanMode srcFeature subset q;
    holder ← MakeFloatHolder srcFeature options clear dst q nanMode borders;
    Done (holder, WriteCalculated idx nanMode borders q).
Proof.
  unfold ProcessFloatFeature, StoredBorders, StoredNanMode, MakeFloatHolder,
    WriteCalculated, CB_ENSURE_INTERNAL.
  destruct (HasNanMode q idx) eqn:Hm; simpl.
  - destruct (ArrayRefIsEmpty _) eqn:He; simpl; [reflexivity|].
    destruct (negb (CpuCompatibleFormat options) && negb clear); simpl;
      [reflexivity|].
    destruct (Quantize _ _ _ _ _); reflexivity.
  - destruct (ArrayRefIsEmpty _) eqn:He; simpl; [|reflexivity].
    destruct (CalcBordersAndNanMode srcFeature subset q) as [[m b]|];
      simpl; [|reflexivity].
    destruct (negb (CpuCompatibleFormat options) && negb clear); simpl.
    + destruct (ArrayRefIsEmpty b); reflexivity.
    + destruct (Quantize _ _ _ _ _); simpl; [|reflexivity].
      destruct (ArrayRefIsEmpty b); reflexivity.
Qed.

Lemma Quantize_allowed values allowNans nanMode featureId borders :
  nanMode <> ENanMode.Forbidden ->
  exists codes,
    Quantize values allowNans nanMode featureId borders = Done codes /\
    length codes = length values.
Proof.
  intros Hmode.
  induction values as [|v values (codes & IH & Hlen)]; simpl; [by exists []|].
  unfold QuantizeValue. rewrite IH.
  rewrite (bool_decide_eq_false_2 (nanMode = ENanMode.Forbidden)) by done.
  destruct (IsNan v); simpl; eexists; (split; [reflexivity|simpl; lia]).
Qed.

Lemma Quantize_no_nans values allowNans nanMode featureId borders :
  existsb IsNan values = false ->
  exists codes,
    Quantize values allowNans nanMode featureId borders = Done codes /\
    length codes = length values.
Proof.
  induction values as [|v values IH]; simpl; [by exists []|].
  intros [Hv Hrest]%orb_false_elim.
  destruct (IH Hrest) as (codes & -> & Hlen).
  unfold QuantizeValue. rewrite Hv. simpl.
  eexists; (split; [reflexivity|simpl; lia]).
Qed.

Lemma Quantize_forbidden values allowNans featureId borders :
  existsb IsNan values = true ->
  Quantize values allowNans ENanMode.Forbidden featureId borders
  = Failed (EnsureFailed (NansInQuantize featureId)).
Proof.
  induction values as [|v values IH]; simpl; [discriminate|].
  unfold QuantizeValue. destruct (IsNan v) eqn:Hv; simpl; [reflexivity|].
  intros Hrest. by rewrite (IH Hrest).
Qed.

Lemma Quantize_failed values allowNans nanMode featureId borders failure :
  Quantize values allowNans nanMode featureId borders = Failed failure ->
  failure = EnsureFailed (NansInQuantize featureId) /\
  nanMode = ENanMode.Forbidden /\ existsb IsNan values = true.
Proof.
  destruct (decide (nanMode = ENanMode.Forbidden)) as [->|Hmode].
  - destruct (existsb IsNan values) eqn:Hn.
    + rewrite Quantize_forbidden by done. by intros [= <-].
    + destruct (Quantize_no_nans values allowNans ENanMode.Forbidden
                  featureId borders Hn) as (codes & -> & _). discriminate.
  - destruct (Quantize_allowed values allowNans nanMode featureId borders
                Hmode) as (codes & -> & _). discriminate.
Qed.

Lemma MakeFloatHolder_variant srcFeature options clear dst q nanMode borders h :
  MakeFloatHolder srcFeature options clear dst q nanMode borders = Done h ->
  (IsExternalFloat h = true <->
   CpuCompatibleFormat options = false /\ clear = false) /\
  (IsExternalFloat h = false ->
   FloatBitsPerKey h = Some 8%nat /\
   exists keys,
     h = TQuantizedFloatValuesHolder (FloatId srcFeature)
           {| ArraySize := length (FloatArrayData srcFeature);
              ArrayBitsPerKey := 8;
              ArrayWords :=
                CompressedSize 8 (length (FloatArrayData srcFeature));
              ArrayKeys := keys |} dst).
Proof.
  unfold MakeFloatHolder.
  destruct (CpuCompatibleFormat options), clear; simpl;
    try (destruct (Quantize _ _ _ _ _) as [keys|]; simpl; [|discriminate]);
    intros [= <-]; simpl; (split; [split; [try discriminate|]|]);
    try tauto; try (intros [? ?]; discriminate); try discriminate;
    intros _; eauto.
Qed.

Lemma ProcessFloatFeature_holder idx srcFeature subset options clear dst q h q' :
  ProcessFloatFeature idx srcFeature subset options clear dst q = Done (h, q') ->
  exists nanMode borders,
    MakeFloatHolder srcFeature options clear dst q nanMode borders = Done h.
Proof.
  rewrite ProcessFloatFeature_cases.
  destruct (negb _); [discriminate|].
  destruct (HasNanMode q idx).
  - destruct (MakeFloatHolder _ _ _ _ _ _ _) as [h0|] eqn:E; simpl;
      [|discriminate].
    intros [= <- <-]. eauto.
  - destruct (CalcBordersAndNanMode _ _ _) as [[m b]|]; simpl; [|discriminate].
    destruct (MakeFloatHolder _ _ _ _ _ _ _) as [h0|] eqn:E; simpl;
      [|discriminate].
    intros [= <- <-]. eauto.
Qed.

(** *** ProcessCatFeature *)

Lemma ProcessCatFeature_variant idx srcFeature options clear dst q :
  let h := (ProcessCatFeature idx srcFeature options clear dst q).1 in
  (IsExternalCat h = true <->
   CpuCompatibleFormat options = false /\ clear = false) /\
  (IsExternalCat h = false ->
   CatBitsPerKey h = Some 32%nat /\
   exists keys,
     h = TQuantizedCatValuesHolder (CatId srcFeature)
           {| ArraySize := length (CatArrayData srcFeature);
              ArrayBitsPerKey := 32;
              ArrayWords :=
                CompressedSize 32 (length (CatArrayData srcFeature));
              ArrayKeys := keys |} dst).
Proof.
  unfold ProcessCatFeature.
  destruct (UpdatePerfectHashAndMaybeQuantize _ _ _) as [table codes].
  destruct (CpuCompatibleFormat options), clear; simpl;
    (split; [split; [try discriminate|]|]);
    try tauto; try (intros [? ?]; discriminate); try discriminate;
    intros _; eauto.
Qed.

(** *** Do *)

Lemma fold_left_Add (task : nat -> TTask) cost indices e :
  fold_left (fun e idx => Add (cost, task idx) e) indices e
  = {| ResourceQuota := ResourceQuota e;
       LenientMode := LenientMode e;
       Queue := Queue e ++ map (fun idx => (cost, task idx)) indices |}.
Proof.
  revert e. induction indices as [|i indices IH]; intros e; simpl.
  - rewrite app_nil_r. by destruct e.
  - rewrite IH. simpl. by rewrite <- app_assoc.
Qed.

(** What a run of [Do] that returns went through. *)
Lemma Do_done options raw q rand cpuRamUsage provider :
  Do options raw q rand cpuRamUsage = Done provider ->
  let clearSrcData := (RefCount raw =? 1)%nat in
  let sub :=
    (GetSubsetForBuildBorders (SubsetIndexing raw) q (Order raw) options rand).1 in
  CpuCompatibleFormat options || GpuCompatibleFormat options = true /\
  exists floatEstimate,
    EstimateMaxMemUsageForFloatFeature (ObjectCount raw) q options clearSrcData
      = Done floatEstimate /\
    Executor provider
      = {| ResourceQuota := ui64 (CpuRamLimit options - cpuRamUsage);
           LenientMode := true;
           Queue :=
             RegisteredTasks (RawFeaturesLayout raw) floatEstimate
               (EstimateMaxMemUsageForCatFeature (ObjectCount raw) options
                  clearSrcData) |} /\
    WarningLog provider = RamWarning options cpuRamUsage /\
    ForCPU provider = CpuCompatibleFormat options /\
    QuantizedSubsetIndexing provider = TFullSubset (ObjectCount raw) /\
    ExecTasks
      (RunTask options clearSrcData (default (SubsetIndexing raw) sub)
         (TFullSubset (ObjectCount raw)))
      (Queue (Executor provider))
      {| QuantizedFeaturesInfo := q;
         SrcFloatFeatures := FloatFeatures raw;
         SrcCatFeatures := CatFeatures raw;
         DstFloatFeatures :=
           replicate (GetFloatFeatureCount (RawFeaturesLayout raw)) None;
         DstCatFeatures :=
           replicate (GetCatFeatureCount (RawFeaturesLayout raw)) None |}
      = Done (Data provider).
Proof.
  unfold Do, CB_ENSURE_INTERNAL.
  destruct (CpuCompatibleFormat options || GpuCompatibleFormat options);
    simpl; [|discriminate].
  destruct (GetSubsetForBuildBorders _ _ _ _ _) as [sub rand']. simpl.
  destruct (EstimateMaxMemUsageForFloatFeature _ _ _ _) as [est|]; simpl;
    [|discriminate].
  rewrite !fold_left_Add. simpl.
  destruct (ExecTasks _ _ _) as [data|] eqn:E; simpl; [|discriminate].
  intros [= <-]. simpl. split; [reflexivity|].
  exists est. repeat split; try reflexivity. exact E.
Qed.

Lemma insert_slot {A} (P : A -> Prop) (slots : list (option A)) i x :
  (forall idx h, slots !! idx = Some (Some h) -> P h) -> P x ->
  forall idx h, <[i := Some x]> slots !! idx = Some (Some h) -> P h.
Proof.
  intros Hs Hx idx h. destruct (decide (i = idx)) as [->|Hne].
  - destruct (decide (idx < length slots)%nat).
    + rewrite list_lookup_insert_eq by done. by intros [= <-].
    + rewrite list_insert_ge by lia. apply Hs.
  - rewrite list_lookup_insert_ne by done. apply Hs.
Qed.

Lemma RunTask_slots PF PC options clear sub dst data task data' :
  (forall idx srcFeature q h q',
     ProcessFloatFeature idx srcFeature sub options clear dst q = Done (h, q') ->
     PF h) ->
  (forall idx srcFeature q,
     PC (ProcessCatFeature idx srcFeature options clear dst q).1) ->
  SlotsSatisfy PF PC data ->
  RunTask options clear sub dst data task = Done data' ->
  SlotsSatisfy PF PC data'.
Proof.
  intros HF HC [Hf Hc]. destruct task as [idx|idx]; simpl.
  - destruct (SrcFloatFeatures data !! idx) as [[src|]|];
      [|discriminate..].
    destruct (ProcessFloatFeature _ _ _ _ _ _ _) as [[h q']|] eqn:E; simpl;
      [|discriminate].
    intros [= <-]. split; simpl; [|exact Hc].
    apply insert_slot; [exact Hf|]. eapply HF, E.
  - destruct (SrcCatFeatures data !! idx) as [[src|]|];
      [|discriminate..].
    pose proof (HC idx src (QuantizedFeaturesInfo data)) as Hh.
    destruct (ProcessCatFeature _ _ _ _ _ _) as [h q']. simpl in Hh.
    intros [= <-]. split; simpl; [exact Hf|].
    by apply insert_slot.
Qed.

Lemma ExecTasks_slots PF PC options clear sub dst queue data data' :
  (forall idx srcFeature q h q',
     ProcessFloatFeature idx srcFeature sub options clear dst q = Done (h, q') ->
     PF h) ->
  (forall idx srcFeature q,
     PC (ProcessCatFeature idx srcFeature options clear dst q).1) ->
  SlotsSatisfy PF PC data ->
  ExecTasks (RunTask options clear sub dst) queue data = Done data' ->
  SlotsSatisfy PF PC data'.
Proof.
  intros HF HC. revert data.
  induction queue as [|[cost task] queue IH]; intros data Hd; simpl.
  - by intros [= <-].
  - destruct (RunTask _ _ _ _ _ _) as [data1|] eqn:E; simpl; [|discriminate].
    apply IH. eapply RunTask_slots; eauto.
Qed.

Lemma replicate_None_slot {A} n idx (h : A) :
  replicate n (@None A) !! idx = Some (Some h) -> False.
Proof. intros [? _]%lookup_replicate. discriminate. Qed.

(** C4. The holder [ProcessFloatFeature] returns and the holder
    [ProcessCatFeature] returns are external if and only if the CPU
    compatible format is not requested and the source data is not
    cleared; otherwise they are compressed arrays with 8 bits per key for
    a float feature and 32 bits per key for a categorical one.  In a run
    of [Do] the source is cleared exactly when the caller holds the only
    reference, and every destination slot that is filled holds such a
    holder. *)
Theorem quantized_holder_variant options :
  (forall idx srcFeature subset clear dst q h q',
     ProcessFloatFeature idx srcFeature subset options clear dst q
       = Done (h, q') ->
     FloatHolderAsRequested options clear h) /\
  (forall idx srcFeature clear dst q,
     CatHolderAsRequested options clear
       (ProcessCatFeature idx srcFeature options clear dst q).1) /\
  (forall raw q rand cpuRamUsage provider,
     Do options raw q rand cpuRamUsage = Done provider ->
     (forall idx h,
        DstFloatFeatures (Data provider) !! idx = Some (Some h) ->
        FloatHolderAsRequested options (bool_decide (RefCount raw = 1%nat)) h) /\
     (forall idx h,
        DstCatFeatures (Data provider) !! idx = Some (Some h) ->
        CatHolderAsRequested options (bool_decide (RefCount raw = 1%nat)) h)).
Proof.
  assert (forall idx srcFeature subset clear dst q h q',
            ProcessFloatFeature idx srcFeature subset options clear dst q
              = Done (h, q') ->
            FloatHolderAsRequested options clear h) as HF.
  { intros idx srcFeature subset clear dst q h q' Hp.
    apply ProcessFloatFeature_holder in Hp as (nanMode & borders & Hh).
    apply MakeFloatHolder_variant in Hh as [Hext Hbits].
    split; [exact Hext|]. intros Hq. by destruct (Hbits Hq). }
  assert (forall idx srcFeature clear dst q,
            CatHolderAsRequested options clear
              (ProcessCatFeature idx srcFeature options clear dst q).1) as HC.
  { intros idx srcFeature clear dst q.
    destruct (ProcessCatFeature_variant idx srcFeature options clear dst q)
      as [Hext Hbits].
    split; [exact Hext|]. intros Hq. by destruct (Hbits Hq). }
  split; [exact HF|]. split; [exact HC|].
  intros raw q rand cpuRamUsage provider Hdo.
  apply Do_done in Hdo as (_ & est & _ & _ & _ & _ & _ & Hexec).
  assert ((RefCount raw =? 1)%nat = bool_decide (RefCount raw = 1%nat)) as Heq.
  { case_bool_decide; [by apply Nat.eqb_eq|by apply Nat.eqb_neq]. }
  rewrite Heq in Hexec.
  eapply ExecTasks_slots in Hexec; [exact Hexec| | |].
  - intros idx srcFeature q0 h q' Hp. eapply HF, Hp.
  - intros idx srcFeature q0. apply HC.
  - split; intros idx h Hl; by apply replicate_None_slot in Hl.
Qed.

Lemma MakeFloatHolder_failed srcFeature options clear dst q nanMode borders f :
  MakeFloatHolder srcFeature options clear dst q nanMode borders = Failed f ->
  f = EnsureFailed (NansInQuantize (FloatId srcFeature)) /\
  nanMode = ENanMode.Forbidden /\
  existsb IsNan (FloatArrayData srcFeature) = true.
Proof.
  unfold MakeFloatHolder.
  destruct (negb (CpuCompatibleFormat options) && negb clear); [discriminate|].
  destruct (Quantize _ _ _ _ _) as [keys|f'] eqn:E; simpl; [discriminate|].
  intros [= <-].
  by apply Quantize_failed in E as (-> & -> & Hnan).
Qed.

Lemma HasNanMode_lookup q idx nanMode :
  NanModes q !! idx = Some nanMode ->
  HasNanMode q idx = true /\ GetNanMode q idx = nanMode.
Proof.
  intros H. unfold HasNanMode, GetNanMode. rewrite H. split; [|done].
  apply bool_decide_eq_true. eauto.
Qed.

(** *** The presence of nan mode and borders *)

Lemma HasNanMode_SetNanMode idx nanMode q :
  HasNanMode (SetNanMode idx nanMode q) idx = true.
Proof.
  unfold HasNanMode, SetNanMode. simpl. rewrite lookup_insert_eq.
  apply bool_decide_eq_true. eauto.
Qed.

(** C5, where the code departs from it. [ProcessFloatFeature] starts
    from metadata that holds neither nan mode nor borders for the
    feature; the subset for the borders holds no NaN and [BestSplit]
    returns no border.  The call returns and leaves the nan mode stored
    without borders, and every later call for the feature on that
    metadata stops at the check that both are stored together, with its
    internal-consistency failure. *)
Theorem ProcessFloatFeature_presence_not_kept
  idx srcFeature subset options clear dst q h q' :
  HasNanMode q idx = false ->
  HasBorders q idx = false ->
  SubsetHasNans srcFeature subset = false ->
  SelectedBorders srcFeature subset q = [] ->
  ProcessFloatFeature idx srcFeature subset options clear dst q = Done (h, q') ->
  HasNanMode q' idx = true /\
  HasBorders q' idx = false /\
  forall srcFeature' subset' options' clear' dst',
    ProcessFloatFeature idx srcFeature' subset' options' clear' dst' q'
    = Failed (EnsureInternalFailed
                (NanModeAndBordersMismatch (FloatId srcFeature'))) /\
    ErrorKind (EnsureInternalFailed
                 (NanModeAndBordersMismatch (FloatId srcFeature')))
    = Some InternalConsistency.
Proof.
  intros Hm Hb Hn Hsel.
  rewrite ProcessFloatFeature_cases, Hm.
  unfold StoredBorders at 1. rewrite Hb. simpl.
  rewrite CalcBordersAndNanMode_cases, Hn, andb_false_r.
  unfold FinalBorders, SortedBorders. rewrite Hn, Hsel. simpl.
  destruct (MakeFloatHolder _ _ _ _ _ _ _) as [h0|]; simpl; [|discriminate].
  intros [= <- <-]. unfold WriteCalculated. simpl.
  assert (HasBorders (SetNanMode idx ENanMode.Forbidden q) idx = false) as Hb'.
  { exact Hb. }
  split; [apply HasNanMode_SetNanMode|]. split; [exact Hb'|].
  intros srcFeature' subset' options' clear' dst'.
  rewrite ProcessFloatFeature_cases, HasNanMode_SetNanMode.
  unfold StoredBorders. rewrite Hb'. simpl. done.
Qed.

(** The check at the start of [ProcessFloatFeature] compares the absence
    of a stored nan mode with the emptiness of the stored borders. *)
Lemma ProcessFloatFeature_presence_check
  idx srcFeature subset options clear dst q :
  HasNanMode q idx = ArrayRefIsEmpty (StoredBorders q idx) <->
  ProcessFloatFeature idx srcFeature subset options clear dst q
  = Failed (EnsureInternalFailed
              (NanModeAndBordersMismatch (FloatId srcFeature))).
Proof.
  rewrite ProcessFloatFeature_cases.
  destruct (HasNanMode q idx) eqn:Hm, (ArrayRefIsEmpty _) eqn:He; simpl;
    try (split; [reflexivity|done]).
  - split; [discriminate|].
    destruct (MakeFloatHolder _ _ _ _ _ _ _) as [h|f] eqn:E; simpl;
      [discriminate|].
    apply MakeFloatHolder_failed in E as (-> & _). discriminate.
  - split; [discriminate|].
    rewrite CalcBordersAndNanMode_cases.
    destruct (_ && _); [discriminate|].
    destruct (_ <? _)%nat; simpl; [|discriminate].
    destruct (MakeFloatHolder _ _ _ _ _ _ _) as [h|f] eqn:E; simpl;
      [discriminate|].
    apply MakeFloatHolder_failed in E as (-> & _). discriminate.
Qed.

(** *** The check of the formats *)




(** *** The quota of the executor *)

Lemma RamWarning_cases options cpuRamUsage :
  (cpuRamUsage <= CpuRamLimit options -> RamWarning options cpuRamUsage = []) /\
  (CpuRamLimit options < cpuRamUsage ->
   RamWarning options cpuRamUsage
   = [CpuRamUsageOverLimit cpuRamUsage (CpuRamLimit options)]).
Proof.
  unfold RamWarning. split; intros H.
  - by rewrite (proj2 (Z.ltb_ge _ _) H).
  - by rewrite (proj2 (Z.ltb_lt _ _) H).
Qed.

Lemma Do_memory_independent options raw q rand usage usage' provider :
  Do options raw q rand usage = Done provider ->
  exists provider',
    Do options raw q rand usage' = Done provider' /\
    Data provider' = Data provider.
Proof.
  unfold Do.
  destruct (CB_ENSURE_INTERNAL _ _); simpl; [|discriminate].
  destruct (GetSubsetForBuildBorders _ _ _ _ _) as [sub rand'].
  destruct (EstimateMaxMemUsageForFloatFeature _ _ _ _) as [est|]; simpl;
    [|discriminate].
  rewrite !fold_left_Add. simpl.
  destruct (ExecTasks _ _ _) as [data|]; simpl; [|discriminate].
  intros [= <-]. eauto.
Qed.

(** C10. The quota [Do] gives the executor is the configured limit minus
    the resident memory in 64-bit unsigned arithmetic.  When the resident
    memory is within the limit this is their difference and nothing is
    logged; when it is above the limit a warning is logged, the run goes
    on as for any other amount of memory in use, and the quota wraps to
    [2^64 - (resident - limit)], a positive value close to the largest
    one instead of zero or a negative one. *)
Theorem Do_resource_quota options raw q rand cpuRamUsage provider :
  0 <= CpuRamLimit options < 2 ^ 64 ->
  0 <= cpuRamUsage < 2 ^ 64 ->
  Do options raw q rand cpuRamUsage = Done provider ->
  ResourceQuota (Executor provider)
    = (CpuRamLimit options - cpuRamUsage) mod 2 ^ 64 /\
  (cpuRamUsage <= CpuRamLimit options ->
   ResourceQuota (Executor provider) = CpuRamLimit options - cpuRamUsage /\
   WarningLog provider = []) /\
  (CpuRamLimit options < cpuRamUsage ->
   WarningLog provider
     = [CpuRamUsageOverLimit cpuRamUsage (CpuRamLimit options)] /\
   ResourceQuota (Executor provider)
     = 2 ^ 64 - (cpuRamUsage - CpuRamLimit options) /\
   0 < ResourceQuota (Executor provider) /\
   2 ^ 64 - cpuRamUsage <= ResourceQuota (Executor provider) /\
   forall usage', exists provider',
     Do options raw q rand usage' = Done provider' /\
     Data provider' = Data provider).
Proof.
  intros Hlimit Husage Hdo.
  pose proof (fun usage' =>
                Do_memory_independent options raw q rand cpuRamUsage usage'
                  provider Hdo) as Hind.
  apply Do_done in Hdo as (_ & est & _ & -> & -> & _).
  destruct (RamWarning_cases options cpuRamUsage) as [Hle Hgt].
  simpl. unfold ui64.
  split; [reflexivity|]. split.
  - intros H. split; [apply Z.mod_small; lia|by apply Hle].
  - intros H. split; [by apply Hgt|].
    assert ((CpuRamLimit options - cpuRamUsage) mod 2 ^ 64
            = 2 ^ 64 - (cpuRamUsage - CpuRamLimit options)) as ->.
    { symmetry. apply Z.mod_unique_pos with (q := -1); lia. }
    split; [reflexivity|]. split; [lia|]. split; [lia|].
    intros usage'. apply Hind.
Qed.

(** *** The scheduler *)

Lemma Usage_app a b : Usage (a ++ b) = Usage a + Usage b.
Proof. induction a as [|t a IH]; simpl; [reflexivity|]. rewrite IH. lia. Qed.

Lemma Usage_nonneg tasks :
  Forall (fun t => 0 <= fst t) tasks -> 0 <= Usage tasks.
Proof. induction 1; simpl; lia. Qed.

(** A step moves one task and takes one unit off [StepsLeft]. *)
Lemma SchedulerStep_tasks quota s s' :
  SchedulerStep quota s s' ->
  Ready s' ++ InFlight s' ++ Finished s' ≡ₚ Ready s ++ InFlight s ++ Finished s /\
  StepsLeft s = S (StepsLeft s').
Proof.
  unfold StepsLeft. destruct 1; simpl; rewrite ?length_app; simpl.
  - split; [|lia]. rewrite <- !app_assoc. simpl.
    by rewrite <- Permutation_middle.
  - split; [|lia]. rewrite <- !app_assoc. simpl.
    by rewrite <- Permutation_middle.
  - split; [|lia]. rewrite <- !app_assoc. simpl.
    do 2 apply Permutation_app_head. symmetry. apply Permutation_middle.
Qed.

Lemma SchedulerStep_within quota s s' :
  0 <= quota ->
  Forall (fun t => 0 <= fst t) (InFlight s) ->
  WithinQuota quota s ->
  SchedulerStep quota s s' ->
  WithinQuota quota s'.
Proof.
  intros Hq Hpos Hin Hstep. unfold WithinQuota in *.
  destruct Hstep; simpl in *.
  - left. lia.
  - right. eauto.
  - left. apply Forall_app in Hpos as [Hb Ht].
    apply Forall_cons in Ht as [Ht Ha].
    destruct Hin as [Hin|(t & Heq & Hover)].
    + rewrite Usage_app in *. simpl in Hin.
      pose proof (Usage_nonneg _ Hb). pose proof (Usage_nonneg _ Ha). lia.
    + destruct before as [|? [|? ?]]; simpl in Heq; try discriminate.
      injection Heq as _ ->. simpl. lia.
Qed.

(** While a task is ready or in flight the scheduler can take a step. *)
Lemma SchedulerStep_progress quota s :
  (exists s', SchedulerStep quota s s') \/ (Ready s = [] /\ InFlight s = []).
Proof.
  destruct s as [ready inFlight finished].
  destruct inFlight as [|t inFlight].
  - destruct ready as [|t ready]; [by right|]. left.
    destruct (decide (fst t <= quota)) as [Hle|Hgt].
    + eexists. apply (StepAdmit quota [] t ready [] finished). simpl. lia.
    + eexists. apply (StepAdmitOversized quota [] t ready finished). lia.
  - left. eexists. apply (StepComplete quota ready [] t inFlight finished).
Qed.

Lemma scheduler_run quota n s0 s :
  0 <= quota ->
  Forall (fun t => 0 <= fst t) (Ready s0 ++ InFlight s0 ++ Finished s0) ->
  WithinQuota quota s0 ->
  nsteps (SchedulerStep quota) n s0 s ->
  WithinQuota quota s /\
  Ready s ++ InFlight s ++ Finished s ≡ₚ Ready s0 ++ InFlight s0 ++ Finished s0 /\
  StepsLeft s0 = (n + StepsLeft s)%nat.
Proof.
  intros Hq Hpos Hin Hrun. induction Hrun as [s|n s0 s1 s Hstep Hrun IH].
  - by repeat split.
  - destruct (SchedulerStep_tasks _ _ _ Hstep) as [Hperm Hleft].
    destruct IH as (Hw & Hp & Hl).
    + by rewrite Hperm.
    + eapply SchedulerStep_within; [done| |done|done].
      rewrite !Forall_app in Hpos. tauto.
    + split; [exact Hw|]. split; [by rewrite Hp|]. lia.
Qed.

(** From every state the scheduler has a run that finishes all tasks. *)
Lemma scheduler_completes quota s :
  exists final,
    nsteps (SchedulerStep quota) (StepsLeft s) s final /\
    Ready final = [] /\ InFlight final = [].
Proof.
  remember (StepsLeft s) as k eqn:Hk. revert s Hk.
  induction k as [|k IH]; intros s Hk.
  - exists s. split; [constructor|].
    unfold StepsLeft in Hk.
    destruct (Ready s), (InFlight s); simpl in Hk; try lia. done.
  - destruct (SchedulerStep_progress quota s) as [[s' Hstep]|[Hr Hi]].
    + destruct (SchedulerStep_tasks _ _ _ Hstep) as [_ Hleft].
      destruct (IH s') as (final & Hrun & Hdone); [lia|].
      exists final. split; [|exact Hdone].
      eapply nsteps_l; [exact Hstep|exact Hrun].
    + unfold StepsLeft in Hk. rewrite Hr, Hi in Hk. simpl in Hk. lia.
Qed.

Lemma Do_executor_unsigned options raw q rand cpuRamUsage provider :
  Do options raw q rand cpuRamUsage = Done provider ->
  0 <= ResourceQuota (Executor provider) /\
  Forall (fun t => 0 <= fst t) (Queue (Executor provider)).
Proof.
  intros Hdo. apply Do_done in Hdo as (_ & est & Hest & -> & _). simpl.
  assert (forall x, 0 <= ui64 x) as H64.
  { intros x. unfold ui64. apply Z.mod_pos_bound. lia. }
  split; [apply H64|].
  unfold RegisteredTasks. apply Forall_app. split.
  - apply Forall_map, Forall_forall. intros idx _. simpl.
    unfold EstimateMaxMemUsageForFloatFeature in Hest.
    destruct (NeedToCalcBorders q); simpl in Hest.
    + destruct (SafeIntegerCast_int _); simpl in Hest; [|discriminate].
      injection Hest as <-. destruct (_ || _); apply H64.
    + injection Hest as <-. destruct (_ || _); [apply H64|lia].
  - apply Forall_map, Forall_forall. intros idx _. simpl.
    unfold EstimateMaxMemUsageForCatFeature. destruct (_ || _); apply H64.
Qed.

(** C8. For the executor a run of [Do] has set up, with the quota and
    the tasks registered for the features: in every state the scheduler
    reaches, the estimates of the tasks in flight sum to at most the
    quota, or a single task whose estimate is above the quota is in
    flight alone; no task is lost; after [n] steps exactly
    [2 * tasks - n] steps are left, so no run is longer than twice the
    number of tasks; the scheduler can take a step until every task, an
    oversized one included, has finished; and the run can be completed
    from the state reached. *)
Theorem scheduler_within_quota options raw q rand cpuRamUsage provider n s :
  Do options raw q rand cpuRamUsage = Done provider ->
  nsteps (SchedulerStep (ResourceQuota (Executor provider))) n
    (InitialState (Executor provider)) s ->
  WithinQuota (ResourceQuota (Executor provider)) s /\
  Ready s ++ InFlight s ++ Finished s ≡ₚ Queue (Executor provider) /\
  (n + StepsLeft s = 2 * length (Queue (Executor provider)))%nat /\
  ((exists s', SchedulerStep (ResourceQuota (Executor provider)) s s') \/
   (Ready s = [] /\ InFlight s = [] /\
    Finished s ≡ₚ Queue (Executor provider))) /\
  (exists final,
     nsteps (SchedulerStep (ResourceQuota (Executor provider)))
       (StepsLeft s) s final /\
     Ready final = [] /\ InFlight final = []).
Proof.
  intros Hdo Hrun.
  destruct (Do_executor_unsigned _ _ _ _ _ _ Hdo) as [Hq Hpos].
  apply scheduler_run in Hrun as (Hw & Hp & Hl); simpl.
  - simpl in Hp, Hl. rewrite app_nil_r in Hp.
    split; [exact Hw|]. split; [exact Hp|].
    split; [unfold StepsLeft in *; simpl in *; lia|].
    split; [|apply scheduler_completes].
    destruct (SchedulerStep_progress (ResourceQuota (Executor provider)) s)
      as [Hstep|[Hr Hi]]; [by left|right].
    split; [exact Hr|]. split; [exact Hi|].
    by rewrite Hr, Hi in Hp.
  - exact Hq.
  - by rewrite app_nil_r.
  - left. simpl. exact Hq.
Qed.

(** *** The memory estimates *)

(** X1. The estimate for a categorical feature multiplies the node size
    by the object count in 32 bits.  Below [2^27] objects it is 32 bytes
    per object, plus 4 bytes per object when the quantized data is
    stored; from [2^27] objects on the product wraps and the estimate
    falls short of that amount by at least [2^32]. *)
Theorem EstimateMaxMemUsageForCatFeature_wraps objectCount options clear :
  let n := Z.of_nat objectCount in
  let stored := if CpuCompatibleFormat options || clear then 4 * n else 0 in
  (n < 2 ^ 27 ->
   EstimateMaxMemUsageForCatFeature objectCount options clear
   = 32 * n + stored) /\
  (2 ^ 27 <= n < 2 ^ 32 ->
   EstimateMaxMemUsageForCatFeature objectCount options clear
   = (32 * n) mod 2 ^ 32 + stored /\
   EstimateMaxMemUsageForCatFeature objectCount options clear + 2 ^ 32
   <= 32 * n + stored).
Proof.
  intros n stored.
  unfold EstimateMaxMemUsageForCatFeature, ui64, ui32,
    ESTIMATED_FEATURES_PERFECT_HASH_MAP_NODE_SIZE.
  fold n. rewrite Z.add_0_l.
  pose proof (Z.mod_pos_bound (32 * n) (2 ^ 32) ltac:(lia)) as Hb.
  assert (0 <= n) as Hn by (unfold n; lia).
  rewrite (Z.mod_small ((32 * n) mod 2 ^ 32) (2 ^ 64)) by lia.
  split.
  - intros Hlt. rewrite (Z.mod_small (32 * n)) by lia.
    unfold stored. destruct (_ || _); [|lia].
    apply Z.mod_small. lia.
  - intros [Hge Hlt].
    assert ((32 * n) mod 2 ^ 32 + 2 ^ 32 <= 32 * n) as Hwrap.
    { pose proof (Z.div_mod (32 * n) (2 ^ 32) ltac:(lia)) as Hdm.
      assert (1 <= 32 * n / 2 ^ 32) by (apply Z.div_le_lower_bound; lia).
      lia. }
    unfold stored. destruct (_ || _).
    + rewrite Z.mod_small by lia. lia.
    + lia.
Qed.

Lemma ProcessFloatFeature_failure idx srcFeature subset options clear dst q f :
  ProcessFloatFeature idx srcFeature subset options clear dst q = Failed f ->
  IsFeatureFailure (FloatId srcFeature) f.
Proof.
  rewrite ProcessFloatFeature_cases. unfold IsFeatureFailure.
  destruct (negb _); [intros [= <-]; tauto|].
  destruct (HasNanMode q idx).
  - destruct (MakeFloatHolder _ _ _ _ _ _ _) as [h|f'] eqn:E; simpl;
      [discriminate|].
    intros [= <-]. apply MakeFloatHolder_failed in E as (-> & _). tauto.
  - rewrite CalcBordersAndNanMode_cases.
    destruct (_ && _); [intros [= <-]; tauto|].
    destruct (_ <? _)%nat; simpl; [|intros [= <-]; tauto].
    destruct (MakeFloatHolder _ _ _ _ _ _ _) as [h|f'] eqn:E; simpl;
      [discriminate|].
    intros [= <-]. apply MakeFloatHolder_failed in E as (-> & _). tauto.
Qed.

Lemma RunTask_failure options clear sub dst data task f :
  RunTask options clear sub dst data task = Failed f ->
  f = NullHolder \/
  exists idx srcFeature,
    task = FloatFeatureTask idx /\
    SrcFloatFeatures data !! idx = Some (Some srcFeature) /\
    IsFeatureFailure (FloatId srcFeature) f.
Proof.
  destruct task as [idx|idx]; simpl.
  - destruct (SrcFloatFeatures data !! idx) as [[src|]|] eqn:Hs;
      [|intros [= <-]; by left..].
    destruct (ProcessFloatFeature _ _ _ _ _ _ _) as [[h q']|f'] eqn:E; simpl;
      [discriminate|].
    intros [= <-]. right. exists idx, src. split; [done|]. split; [done|].
    eapply ProcessFloatFeature_failure, E.
  - destruct (SrcCatFeatures data !! idx) as [[src|]|];
      [|intros [= <-]; by left..].
    destruct (ProcessCatFeature _ _ _ _ _ _). discriminate.
Qed.

Lemma ExecTasks_failure options clear sub dst queue data f :
  ExecTasks (RunTask options clear sub dst) queue data = Failed f ->
  f = NullHolder \/ exists featureId, IsFeatureFailure featureId f.
Proof.
  revert data. induction queue as [|[cost task] queue IH]; intros data; simpl;
    [discriminate|].
  destruct (RunTask _ _ _ _ _ _) as [data1|f1] eqn:E; simpl; [apply IH|].
  intros [= <-].
  apply RunTask_failure in E as [->|(idx & src & _ & _ & Hf)]; eauto.
Qed.

(** X2. [Do] ends in the failure of [SafeIntegerCast] exactly when a
    format is requested, an available float feature lacks borders and the
    configured border count is above the largest [int]; the data, the
    generator and the memory in use play no part, and no feature is
    processed. *)
Theorem Do_bad_cast options raw q rand cpuRamUsage :
  Do options raw q rand cpuRamUsage = Failed BadCast <->
  CpuCompatibleFormat options || GpuCompatibleFormat options = true /\
  NeedToCalcBorders q = true /\
  2 ^ 31 - 1 < Z.of_nat (BorderCount (FloatFeatureBinarization q)).
Proof.
  unfold Do, CB_ENSURE_INTERNAL.
  destruct (CpuCompatibleFormat options || GpuCompatibleFormat options);
    simpl; [|split; [discriminate|intros [? _]; discriminate]].
  destruct (GetSubsetForBuildBorders _ _ _ _ _) as [sub rand'].
  unfold EstimateMaxMemUsageForFloatFeature, SafeIntegerCast_int.
  destruct (NeedToCalcBorders q); simpl.
  - destruct (_ <=? _) eqn:Hc; simpl.
    + apply Z.leb_le in Hc. split; [|lia].
      destruct (ExecTasks _ _ _) as [data|f'] eqn:E; simpl; [discriminate|].
      intros [= ->]. apply ExecTasks_failure in E as [?|(id & Hf)];
        [discriminate|].
      unfold IsFeatureFailure in Hf.
      destruct Hf as [?|[?|[?|?]]]; discriminate.
    + apply Z.leb_gt in Hc. split; [intros _|reflexivity].
      split; [reflexivity|]. split; [reflexivity|lia].
  - split; [|intros (_ & ? & _); discriminate].
    destruct (ExecTasks _ _ _) as [data|f'] eqn:E; simpl; [discriminate|].
    intros [= ->]. apply ExecTasks_failure in E as [?|(id & Hf)];
      [discriminate|].
    unfold IsFeatureFailure in Hf.
    destruct Hf as [?|[?|[?|?]]]; discriminate.
Qed.

(** *** The metadata after ProcessFloatFeature *)

(** The two ways [ProcessFloatFeature] returns: with the stored nan mode
    and borders and the metadata as it was, or with the calculated ones
    written to the metadata. *)
Lemma ProcessFloatFeature_done idx srcFeature subset options clear dst q h q' :
  ProcessFloatFeature idx srcFeature subset options clear dst q = Done (h, q') ->
  (HasNanMode q idx = true /\ StoredBorders q idx <> [] /\ q' = q /\
   MakeFloatHolder srcFeature options clear dst q
     (GetNanMode q idx) (StoredBorders q idx) = Done h) \/
  (HasNanMode q idx = false /\ StoredBorders q idx = [] /\
   exists nanMode borders,
     CalcBordersAndNanMode srcFeature subset q = Done (nanMode, borders) /\
     MakeFloatHolder srcFeature options clear dst q nanMode borders = Done h /\
     q' = WriteCalculated idx nanMode borders q).
Proof.
  rewrite ProcessFloatFeature_cases.
  destruct (HasNanMode q idx) eqn:Hm;
    destruct (StoredBorders q idx) as [|b0 bs] eqn:Hb; simpl;
    try discriminate.
  - destruct (MakeFloatHolder _ _ _ _ _ _ _) as [h0|] eqn:E; simpl;
      [|discriminate].
    intros [= <- <-]. left. by repeat split.
  - destruct (CalcBordersAndNanMode _ _ _) as [[m b]|] eqn:Ec; simpl;
      [|discriminate].
    destruct (MakeFloatHolder _ _ _ _ _ _ _) as [h0|] eqn:E; simpl;
      [|discriminate].
    intros [= <- <-]. right. repeat split. eauto.
Qed.

Lemma WriteCalculated_fields idx nanMode borders q :
  FeaturesLayout (WriteCalculated idx nanMode borders q) = FeaturesLayout q /\
  FloatFeatureBinarization (WriteCalculated idx nanMode borders q)
    = FloatFeatureBinarization q /\
  FloatFeaturesAllowNansInTestOnly (WriteCalculated idx nanMode borders q)
    = FloatFeaturesAllowNansInTestOnly q /\
  CatFeaturesPerfectHash (WriteCalculated idx nanMode borders q)
    = CatFeaturesPerfectHash q /\
  NanModes (WriteCalculated idx nanMode borders q)
    = <[idx := nanMode]> (NanModes q) /\
  Borders (WriteCalculated idx nanMode borders q)
    = if ArrayRefIsEmpty borders then Borders q
      else <[idx := borders]> (Borders q).
Proof. unfold WriteCalculated. by destruct (ArrayRefIsEmpty borders). Qed.

Lemma MakeFloatHolder_flag srcFeature options clear dst q1 q2 nanMode borders :
  FloatFeaturesAllowNansInTestOnly q1 = FloatFeaturesAllowNansInTestOnly q2 ->
  MakeFloatHolder srcFeature options clear dst q1 nanMode borders
  = MakeFloatHolder srcFeature options clear dst q2 nanMode borders.
Proof. unfold MakeFloatHolder. by intros ->. Qed.

Lemma CalcBordersAndNanMode_done srcFeature subset q nanMode borders :
  CalcBordersAndNanMode srcFeature subset q = Done (nanMode, borders) ->
  nanMode = EffectiveNanMode (SubsetHasNans srcFeature subset)
              (NanMode (FloatFeatureBinarization q)) /\
  borders = FinalBorders srcFeature subset q /\
  (length borders < 256)%nat.
Proof.
  rewrite CalcBordersAndNanMode_cases.
  destruct (_ && _); [discriminate|].
  destruct (_ <? _)%nat eqn:E; [|discriminate].
  intros [= <- <-]. repeat split. by apply Nat.ltb_lt.
Qed.

Lemma StoredBorders_lookup q idx :
  StoredBorders q idx = default [] (Borders q !! idx).
Proof.
  unfold StoredBorders, HasBorders, GetBorders.
  destruct (Borders q !! idx); [|done].
  rewrite bool_decide_eq_true_2; [done|eauto].
Qed.

(** X3. A call of [ProcessFloatFeature] that returns changes nothing of
    the metadata but the nan mode and the borders of its own feature:
    the layout, the binarization options, the flag for NaNs in test data
    and the perfect hashes stay, and so do the nan mode and the borders
    of every other float feature. *)
Theorem ProcessFloatFeature_frame idx srcFeature subset options clear dst q h q' :
  ProcessFloatFeature idx srcFeature subset options clear dst q = Done (h, q') ->
  FeaturesLayout q' = FeaturesLayout q /\
  FloatFeatureBinarization q' = FloatFeatureBinarization q /\
  FloatFeaturesAllowNansInTestOnly q' = FloatFeaturesAllowNansInTestOnly q /\
  CatFeaturesPerfectHash q' = CatFeaturesPerfectHash q /\
  forall idx', idx' <> idx ->
    NanModes q' !! idx' = NanModes q !! idx' /\
    Borders q' !! idx' = Borders q !! idx'.
Proof.
  intros [(_ & _ & -> & _)|(_ & _ & m & b & _ & _ & ->)]%ProcessFloatFeature_done;
    [done|].
  destruct (WriteCalculated_fields idx m b q) as (-> & -> & -> & -> & -> & ->).
  repeat split; try reflexivity.
  - by rewrite lookup_insert_ne.
  - destruct (ArrayRefIsEmpty b); [done|]. by rewrite lookup_insert_ne.
Qed.

(** X5. Quantizing a column again with the metadata a returning call
    left, when it holds borders for the feature, returns the same holder
    and leaves the metadata as it is, whatever subset is given for the
    borders. *)
Theorem ProcessFloatFeature_again
  idx srcFeature subset subset' options clear dst q h q' :
  ProcessFloatFeature idx srcFeature subset options clear dst q = Done (h, q') ->
  StoredBorders q' idx <> [] ->
  ProcessFloatFeature idx srcFeature subset' options clear dst q' = Done (h, q').
Proof.
  intros [(Hm & Hb & -> & Hh)|(Hm & Hb & m & b & Hc & Hh & ->)]%ProcessFloatFeature_done
    Hstored; rewrite ProcessFloatFeature_cases.
  - rewrite Hm. destruct (StoredBorders q idx); [done|]. simpl.
    by rewrite Hh.
  - destruct (WriteCalculated_fields idx m b q) as (_ & _ & Hflag & _ & Hn & Hbs).
    assert (HasNanMode (WriteCalculated idx m b q) idx = true
            /\ GetNanMode (WriteCalculated idx m b q) idx = m) as [Hm' Hg].
    { apply HasNanMode_lookup. rewrite Hn. apply lookup_insert_eq. }
    assert (StoredBorders (WriteCalculated idx m b q) idx = b) as Hsb.
    { rewrite StoredBorders_lookup in *. rewrite Hbs in *.
      destruct b as [|b0 bs]; simpl in *.
      - by rewrite Hb in Hstored.
      - by rewrite lookup_insert_eq. }
    rewrite Hm', Hg, Hsb.
    destruct b as [|b0 bs]; [by rewrite Hsb in Hstored|]. simpl.
    rewrite (MakeFloatHolder_flag _ _ _ _ _ q) by done.
    by rewrite Hh.
Qed.

(** X6. After a call of [ProcessFloatFeature] that returns, the nan mode
    stored for the feature is the one the column was quantized with; a
    nan mode that was stored before is kept, and so are stored borders
    that are not empty; borders that appear are the calculated ones,
    between 1 and 255 of them. *)
Theorem ProcessFloatFeature_stores_nan_mode
  idx srcFeature subset options clear dst q h q' :
  ProcessFloatFeature idx srcFeature subset options clear dst q = Done (h, q') ->
  NanModes q' !! idx = Some (QuantizationNanMode idx srcFeature subset q) /\
  (exists borders,
     MakeFloatHolder srcFeature options clear dst q
       (QuantizationNanMode idx srcFeature subset q) borders = Done h) /\
  (forall nanMode, NanModes q !! idx = Some nanMode ->
                   NanModes q' !! idx = Some nanMode) /\
  (forall borders, Borders q !! idx = Some borders -> borders <> [] ->
                   Borders q' !! idx = Some borders) /\
  (Borders q' !! idx = Borders q !! idx \/
   Borders q' !! idx = Some (FinalBorders srcFeature subset q) /\
   (0 < length (FinalBorders srcFeature subset q) < 256)%nat).
Proof.
  unfold QuantizationNanMode.
  intros [(Hm & Hb & -> & Hh)|(Hm & Hb & m & b & Hc & Hh & ->)]%ProcessFloatFeature_done.
  - rewrite Hm.
    assert (NanModes q !! idx = Some (GetNanMode q idx)) as Hl.
    { unfold HasNanMode in Hm. apply bool_decide_eq_true in Hm as [x Hx].
      unfold GetNanMode. by rewrite Hx. }
    split; [exact Hl|]. split; [eauto|]. split; [done|]. split; [done|].
    by left.
  - rewrite Hm.
    apply CalcBordersAndNanMode_done in Hc as (-> & -> & Hlen).
    destruct (WriteCalculated_fields idx
                (EffectiveNanMode (SubsetHasNans srcFeature subset)
                   (NanMode (FloatFeatureBinarization q)))
                (FinalBorders srcFeature subset q) q)
      as (_ & _ & _ & _ & -> & ->).
    split; [apply lookup_insert_eq|]. split; [eauto|].
    split.
    { intros nanMode Hl. apply HasNanMode_lookup in Hl as [Hl _]. congruence. }
    split.
    { intros borders Hl Hne. rewrite StoredBorders_lookup, Hl in Hb. done. }
    destruct (FinalBorders srcFeature subset q) as [|b0 bs] eqn:Hf; simpl;
      [by left|right].
    split; [apply lookup_insert_eq|simpl in *; lia].
Qed.

(** X7. What [ProcessFloatFeature] writes to the metadata does not depend
    on the requested format, on the ownership of the source or on the
    destination subset; and whenever a call returns, the call that asks
    for the external holder returns too, with the source values behind
    the holder. *)
Theorem ProcessFloatFeature_metadata_any_format
  idx srcFeature subset options clear dst options' clear' dst' q h q' :
  ProcessFloatFeature idx srcFeature subset options clear dst q = Done (h, q') ->
  (forall h2 q2,
     ProcessFloatFeature idx srcFeature subset options' clear' dst' q
       = Done (h2, q2) ->
     q2 = q') /\
  (CpuCompatibleFormat options' = false -> clear' = false ->
   ProcessFloatFeature idx srcFeature subset options' clear' dst' q
   = Done (TExternalFloatValuesHolder (FloatId srcFeature)
             (FloatSrc srcFeature) dst', q')).
Proof.
  intros Hfirst. split.
  - intros h2 q2 Hsecond.
    apply ProcessFloatFeature_done in Hfirst
      as [(Hm & _ & -> & _)|(Hm & _ & m & b & Hc & _ & ->)];
      apply ProcessFloatFeature_done in Hsecond
        as [(Hm2 & _ & -> & _)|(Hm2 & _ & m2 & b2 & Hc2 & _ & ->)];
      try congruence.
  - intros Hcpu ->.
    assert (forall nanMode borders,
              MakeFloatHolder srcFeature options' false dst' q nanMode borders
              = Done (TExternalFloatValuesHolder (FloatId srcFeature)
                        (FloatSrc srcFeature) dst')) as Hext.
    { intros. unfold MakeFloatHolder. by rewrite Hcpu. }
    rewrite ProcessFloatFeature_cases.
    apply ProcessFloatFeature_done in Hfirst
      as [(Hm & Hb & -> & _)|(Hm & Hb & m & b & Hc & _ & ->)].
    + rewrite Hm. destruct (StoredBorders q idx); [done|]. simpl.
      by rewrite Hext.
    + rewrite Hm, Hb. simpl. rewrite Hc. simpl. by rewrite Hext.
Qed.
(** *** The number of borders *)

Lemma HashSetErase_absent x s : x ∉ s -> HashSetErase x s = s.
Proof.
  unfold HashSetErase, THashSet in *.
  induction s as [|a s IH]; intros Hx; [done|].
  apply not_elem_of_cons in Hx as [Hne Hx].
  rewrite filter_cons_True by done. by rewrite IH.
Qed.

Lemma HashSetErase_length x s :
  NoDup s -> x ∈ s -> (length (HashSetErase x s) + 1 = length s)%nat.
Proof.
  unfold HashSetErase, THashSet in *.
  induction s as [|a s IH]; intros Hnd Hx.
  - by apply elem_of_nil in Hx.
  - apply NoDup_cons in Hnd as [Ha Hnd].
    destruct (decide (a = x)) as [->|Hne].
    + rewrite filter_cons_False by (intros H; by apply H).
      pose proof (HashSetErase_absent x s Ha) as Hs.
      unfold HashSetErase, THashSet in Hs. rewrite Hs.
      simpl. lia.
    + rewrite filter_cons_True by done.
      apply elem_of_cons in Hx as [->|Hx]; [done|].
      simpl. rewrite <- (IH Hnd Hx). lia.
Qed.

Lemma NormalizeNegativeZero_length s :
  NoDup s ->
  (length (NormalizeNegativeZero s)
   + (if bool_decide (neg_zero ∈ s /\ pos_zero ∈ s) then 1 else 0)
   = length s)%nat.
Proof.
  intros Hnd. unfold NormalizeNegativeZero.
  destruct (HashSetHas neg_zero s) eqn:Hneg.
  - apply HashSetHas_true in Hneg.
    pose proof (HashSetErase_length neg_zero s Hnd Hneg) as Hlen.
    unfold HashSetInsert.
    destruct (HashSetHas pos_zero (HashSetErase neg_zero s)) eqn:Hpos.
    + apply HashSetHas_true, HashSetErase_elem in Hpos as [_ Hpos].
      rewrite bool_decide_eq_true_2 by done. lia.
    + rewrite bool_decide_eq_false_2; [simpl; lia|].
      intros [_ Hp].
      assert (HashSetHas pos_zero (HashSetErase neg_zero s) = true) as Ht.
      { apply HashSetHas_true, HashSetErase_elem. by split. }
      congruence.
  - rewrite bool_decide_eq_false_2; [lia|].
    intros [Hn _]. apply HashSetHas_true in Hn. congruence.
Qed.

Lemma AddNanBorder_length nanMode borders :
  length (AddNanBorder nanMode borders)
  = (length borders
     + if bool_decide (nanMode = ENanMode.Forbidden) then 0 else 1)%nat.
Proof.
  destruct nanMode; simpl; rewrite ?length_app; simpl; lia.
Qed.

(** X8. [CalcBordersAndNanMode] returns as many borders as [BestSplit]
    selected, one less when both zeros were selected and one more when
    the nan mode found is Min or Max; it ends in the failure of
    [Y_VERIFY] exactly when the check on missing values passes and that
    number is 256 or more, as for 255 selected borders and a NaN under
    Min or Max. *)
Theorem CalcBordersAndNanMode_count srcFeature subset q :
  let selected := SelectedBorders srcFeature subset q in
  let nanMode :=
    EffectiveNanMode (SubsetHasNans srcFeature subset)
      (NanMode (FloatFeatureBinarization q)) in
  let merged :=
    if bool_decide (neg_zero ∈ selected /\ pos_zero ∈ selected)
    then 1%nat else 0%nat in
  let added :=
    if bool_decide (nanMode = ENanMode.Forbidden) then 0%nat else 1%nat in
  NoDup selected ->
  (forall nanMode' borders,
     CalcBordersAndNanMode srcFeature subset q = Done (nanMode', borders) ->
     (length borders + merged = length selected + added)%nat) /\
  (CalcBordersAndNanMode srcFeature subset q = Failed VerifyFailed <->
   ~ (SubsetHasNans srcFeature subset = true /\
      NanMode (FloatFeatureBinarization q) = ENanMode.Forbidden) /\
   (256 + merged <= length selected + added)%nat).
Proof.
  intros selected nanMode merged added Hnd.
  assert ((length (FinalBorders srcFeature subset q) + merged
           = length selected + added)%nat) as Hlen.
  { pose proof (NormalizeNegativeZero_length selected Hnd) as H.
    unfold FinalBorders, SortedBorders.
    rewrite AddNanBorder_length, (Permutation_length (Sort_perm _)).
    subst merged added nanMode selected.
    destruct (bool_decide _), (bool_decide _); lia. }
  clearbody merged added.
  rewrite CalcBordersAndNanMode_cases. split.
  - intros nanMode' borders.
    destruct (_ && _); [discriminate|].
    destruct (_ <? _)%nat; [|discriminate].
    by intros [= _ <-].
  - destruct (bool_decide_reflect
                (NanMode (FloatFeatureBinarization q) = ENanMode.Forbidden))
      as [Hf|Hf];
      destruct (SubsetHasNans srcFeature subset) eqn:Hn; simpl.
    + split; [discriminate|]. intros [H _]. exfalso. by apply H.
    + destruct (_ <? _)%nat eqn:E.
      * apply Nat.ltb_lt in E. split; [discriminate|]. intros [_ ?]. lia.
      * apply Nat.ltb_ge in E. split; [intros _|done].
        split; [intros [? _]; discriminate|lia].
    + destruct (_ <? _)%nat eqn:E.
      * apply Nat.ltb_lt in E. split; [discriminate|]. intros [_ ?]. lia.
      * apply Nat.ltb_ge in E. split; [intros _|done].
        split; [intros [_ ?]; contradiction|lia].
    + destruct (_ <? _)%nat eqn:E.
      * apply Nat.ltb_lt in E. split; [discriminate|]. intros [_ ?]. lia.
      * apply Nat.ltb_ge in E. split; [intros _|done].
        split; [intros [? _]; discriminate|lia].
Qed.

(** *** The metadata after ProcessCatFeature *)

Lemma UpdatePerfectHashAndMaybeQuantize_table table values dst :
  (UpdatePerfectHashAndMaybeQuantize table values dst).1
  = (fold_left UpdatePerfectHashStep values (table, [])).1.
Proof.
  unfold UpdatePerfectHashAndMaybeQuantize.
  by destruct (fold_left _ _ _).
Qed.

Lemma ProcessCatFeature_info idx srcFeature options clear dst q :
  (ProcessCatFeature idx srcFeature options clear dst q).2
  = SetPerfectHash idx
      (fold_left UpdatePerfectHashStep (CatArrayData srcFeature)
         (default ∅ (CatFeaturesPerfectHash q !! idx), [])).1
      q.
Proof.
  unfold ProcessCatFeature.
  rewrite <- (UpdatePerfectHashAndMaybeQuantize_table _ _
                (negb (negb (CpuCompatibleFormat options) && negb clear))).
  by destruct (UpdatePerfectHashAndMaybeQuantize _ _ _).
Qed.

Lemma ProcessCatFeature_holder idx srcFeature options clear dst q :
  CatHolderId (ProcessCatFeature idx srcFeature options clear dst q).1
    = CatId srcFeature /\
  CatHolderSubset (ProcessCatFeature idx srcFeature options clear dst q).1
    = dst.
Proof.
  unfold ProcessCatFeature.
  destruct (UpdatePerfectHashAndMaybeQuantize _ _ _).
  by destruct (negb (CpuCompatibleFormat options) && negb clear).
Qed.

(** *** The tasks of Do *)

Lemma AvailableIndices_elem flags idx :
  idx ∈ AvailableIndices flags <-> flags !! idx = Some true.
Proof.
  unfold AvailableIndices. rewrite list_elem_of_filter, elem_of_seq.
  split.
  - intros [Hn Hlt]. destruct (flags !! idx) as [b|] eqn:E.
    + apply nth_lookup_Some with (d := false) in E. congruence.
    + apply lookup_ge_None in E. lia.
  - intros E. split.
    + by apply nth_lookup_Some with (d := false) in E.
    + apply lookup_lt_Some in E. lia.
Qed.

Lemma RegisteredTasks_float layout floatEstimate catEstimate cost idx :
  (cost, FloatFeatureTask idx) ∈ RegisteredTasks layout floatEstimate catEstimate
  <-> cost = floatEstimate /\ FloatFeatureAvailable layout !! idx = Some true.
Proof.
  unfold RegisteredTasks.
  rewrite elem_of_app, !list_elem_of_fmap.
  setoid_rewrite AvailableIndices_elem. split.
  - intros [(i & [= -> ->] & Hi)|(i & [=] & _)]. done.
  - intros [-> Hi]. left. eauto.
Qed.

Lemma RegisteredTasks_cat layout floatEstimate catEstimate cost idx :
  (cost, CatFeatureTask idx) ∈ RegisteredTasks layout floatEstimate catEstimate
  <-> cost = catEstimate /\ CatFeatureAvailable layout !! idx = Some true.
Proof.
  unfold RegisteredTasks.
  rewrite elem_of_app, !list_elem_of_fmap.
  setoid_rewrite AvailableIndices_elem. split.
  - intros [(i & [=] & _)|(i & [= -> ->] & Hi)]. done.
  - intros [-> Hi]. right. eauto.
Qed.

(** What a float task that returns did: it processed the source column
    and filled its slot, destroying the column when asked to. *)
Lemma RunTask_float options clear sub dst d idx d' :
  RunTask options clear sub dst d (FloatFeatureTask idx) = Done d' ->
  exists src h q',
    SrcFloatFeatures d !! idx = Some (Some src) /\
    ProcessFloatFeature idx src sub options clear dst (QuantizedFeaturesInfo d)
      = Done (h, q') /\
    QuantizedFeaturesInfo d' = q' /\
    SrcFloatFeatures d'
      = (if clear then <[idx := None]> (SrcFloatFeatures d)
         else SrcFloatFeatures d) /\
    SrcCatFeatures d' = SrcCatFeatures d /\
    DstFloatFeatures d' = <[idx := Some h]> (DstFloatFeatures d) /\
    DstCatFeatures d' = DstCatFeatures d.
Proof.
  simpl. destruct (SrcFloatFeatures d !! idx) as [[src|]|] eqn:Hs;
    [|discriminate..].
  destruct (ProcessFloatFeature _ _ _ _ _ _ _) as [[h q']|] eqn:E; simpl;
    [|discriminate].
  intros [= <-]. exists src, h, q'. by repeat split.
Qed.

Lemma RunTask_cat options clear sub dst d idx d' :
  RunTask options clear sub dst d (CatFeatureTask idx) = Done d' ->
  exists src,
    SrcCatFeatures d !! idx = Some (Some src) /\
    QuantizedFeaturesInfo d'
      = (ProcessCatFeature idx src options clear dst
           (QuantizedFeaturesInfo d)).2 /\
    SrcFloatFeatures d' = SrcFloatFeatures d /\
    SrcCatFeatures d'
      = (if clear then <[idx := None]> (SrcCatFeatures d)
         else SrcCatFeatures d) /\
    DstFloatFeatures d' = DstFloatFeatures d /\
    DstCatFeatures d'
      = <[idx := Some (ProcessCatFeature idx src options clear dst
                         (QuantizedFeaturesInfo d)).1]>
          (DstCatFeatures d).
Proof.
  simpl. destruct (SrcCatFeatures d !! idx) as [[src|]|] eqn:Hs;
    [|discriminate..].
  destruct (ProcessCatFeature _ _ _ _ _ _) as [h q'] eqn:E.
  intros [= <-]. exists src. rewrite E. simpl.
  repeat split; reflexivity.
Qed.

(** A property that every task of the queue keeps holds after the run. *)
Lemma ExecTasks_invariant (I : TQuantizedBuilderData -> Prop)
  (run : TQuantizedBuilderData -> TTask -> TResult TQuantizedBuilderData)
  queue data data' :
  (forall d cost task d',
     (cost, task) ∈ queue -> I d -> run d task = Done d' -> I d') ->
  I data ->
  ExecTasks run queue data = Done data' ->
  I data'.
Proof.
  revert data. induction queue as [|[cost task] queue IH]; intros data Hstep Hi;
    simpl.
  - by intros [= <-].
  - destruct (run data task) as [d1|] eqn:E; simpl; [|discriminate].
    apply IH.
    + intros d c t d' Hin. apply (Hstep d c t d'). by right.
    + apply (Hstep data cost task d1); [by left|done|done].
Qed.

(** A property that the task [own] brings about and every task keeps
    holds after a run whose queue holds [own]. *)
Lemma ExecTasks_establishes (P Pre : TQuantizedBuilderData -> Prop)
  (run : TQuantizedBuilderData -> TTask -> TResult TQuantizedBuilderData)
  own queue data data' :
  (forall d task d', run d task = Done d' -> P d -> P d') ->
  (forall d d', run d own = Done d' -> Pre d -> P d') ->
  (forall d task d', task <> own -> run d task = Done d' -> Pre d -> Pre d') ->
  (exists cost, (cost, own) ∈ queue) ->
  Pre data \/ P data ->
  ExecTasks run queue data = Done data' ->
  P data'.
Proof.
  intros Hkeep Hown Hother. revert data.
  assert (forall queue data, P data ->
            ExecTasks run queue data = Done data' -> P data') as Hrest.
  { clear queue. intros queue data Hp.
    apply (ExecTasks_invariant P); [|done].
    intros d c t d' _ Hd Hr. by apply (Hkeep d t d'). }
  induction queue as [|[cost task] queue IH]; intros data [c Hin] Hstart; simpl.
  - by apply elem_of_nil in Hin.
  - destruct (run data task) as [d1|] eqn:E; simpl; [|discriminate].
    destruct Hstart as [Hpre|Hp].
    + destruct (decide (task = own)) as [->|Hne].
      * apply Hrest. by apply (Hown data d1).
      * apply elem_of_cons in Hin as [[= _ ->]|Hin]; [done|].
        apply IH; [eauto|]. left. by apply (Hother data task d1).
    + apply Hrest. by apply (Hkeep data task d1).
Qed.
Lemma MakeFloatHolder_fields srcFeature options clear dst q nanMode borders h :
  MakeFloatHolder srcFeature options clear dst q nanMode borders = Done h ->
  FloatHolderId h = FloatId srcFeature /\ FloatHolderSubset h = dst.
Proof.
  unfold MakeFloatHolder.
  destruct (negb (CpuCompatibleFormat options) && negb clear).
  - by intros [= <-].
  - destruct (Quantize _ _ _ _ _); simpl; [|discriminate]. by intros [= <-].
Qed.

(** What a returning call of [ProcessFloatFeature] leaves of the
    metadata, and the holder it gives. *)
Lemma ProcessFloatFeature_info idx srcFeature subset options clear dst q h q' :
  ProcessFloatFeature idx srcFeature subset options clear dst q = Done (h, q') ->
  FloatHolderId h = FloatId srcFeature /\
  FloatHolderSubset h = dst /\
  FeaturesLayout q' = FeaturesLayout q /\
  FloatFeatureBinarization q' = FloatFeatureBinarization q /\
  FloatFeaturesAllowNansInTestOnly q' = FloatFeaturesAllowNansInTestOnly q /\
  CatFeaturesPerfectHash q' = CatFeaturesPerfectHash q /\
  HasNanMode q' idx = true /\
  (forall i nanMode, NanModes q !! i = Some nanMode ->
                     NanModes q' !! i = Some nanMode) /\
  (forall i borders, Borders q !! i = Some borders -> borders <> [] ->
                     Borders q' !! i = Some borders) /\
  (forall i, i <> idx ->
     NanModes q' !! i = NanModes q !! i /\ Borders q' !! i = Borders q !! i).
Proof.
  intros [(Hm & Hb & -> & Hh)|(Hm & Hb & m & b & Hc & Hh & ->)]%ProcessFloatFeature_done;
    apply MakeFloatHolder_fields in Hh as [Hid Hsub].
  - by repeat split.
  - destruct (WriteCalculated_fields idx m b q) as (-> & -> & -> & -> & Hn & Hbs).
    assert (forall i nanMode, NanModes q !! i = Some nanMode -> i <> idx) as Hfresh.
    { intros i nanMode Hl ->. apply HasNanMode_lookup in Hl as [Hl _].
      congruence. }
    repeat split; try done.
    + apply HasNanMode_lookup with (nanMode := m). rewrite Hn.
      apply lookup_insert_eq.
    + intros i nanMode Hl. rewrite Hn, lookup_insert_ne; [done|].
      intros Heq. by apply (Hfresh i nanMode Hl).
    + intros i borders Hl Hne. rewrite Hbs.
      destruct (ArrayRefIsEmpty b); [done|].
      rewrite lookup_insert_ne; [done|]. intros Heq. subst i.
      rewrite StoredBorders_lookup, Hl in Hb. done.
    + rewrite Hn. by rewrite lookup_insert_ne.
    + rewrite Hbs. destruct (ArrayRefIsEmpty b); [done|].
      by rewrite lookup_insert_ne.
Qed.

Lemma insert_None_lookup {A} (l : list (option A)) i j x :
  <[i := None]> l !! j = Some (Some x) -> l !! j = Some (Some x).
Proof.
  destruct (decide (i = j)) as [->|Hne].
  - destruct (decide (j < length l)%nat).
    + rewrite list_lookup_insert_eq by done. discriminate.
    + by rewrite list_insert_ge by lia.
  - by rewrite list_lookup_insert_ne.
Qed.

(** *** The result of Do *)

(** X10. After a run of [Do] that returns there is one destination slot
    per float feature and per categorical feature of the layout.  When
    the caller is not the only owner of the raw data the source columns
    are as they were; when it is, the source column of every available
    feature is gone and the columns of the other features are as they
    were. *)
Theorem Do_sources options raw q rand cpuRamUsage provider :
  Do options raw q rand cpuRamUsage = Done provider ->
  length (DstFloatFeatures (Data provider))
    = GetFloatFeatureCount (RawFeaturesLayout raw) /\
  length (DstCatFeatures (Data provider))
    = GetCatFeatureCount (RawFeaturesLayout raw) /\
  (RefCount raw <> 1%nat ->
   SrcFloatFeatures (Data provider) = FloatFeatures raw /\
   SrcCatFeatures (Data provider) = CatFeatures raw) /\
  (RefCount raw = 1%nat ->
   (forall idx src,
      FloatFeatureAvailable (RawFeaturesLayout raw) !! idx = Some true ->
      SrcFloatFeatures (Data provider) !! idx <> Some (Some src)) /\
   (forall idx src,
      CatFeatureAvailable (RawFeaturesLayout raw) !! idx = Some true ->
      SrcCatFeatures (Data provider) !! idx <> Some (Some src)) /\
   (forall idx,
      FloatFeatureAvailable (RawFeaturesLayout raw) !! idx <> Some true ->
      SrcFloatFeatures (Data provider) !! idx = FloatFeatures raw !! idx) /\
   (forall idx,
      CatFeatureAvailable (RawFeaturesLayout raw) !! idx <> Some true ->
      SrcCatFeatures (Data provider) !! idx = CatFeatures raw !! idx)).
Proof.
  intros Hdo. apply Do_done in Hdo as (_ & est & _ & Hex & _ & _ & _ & Hexec).
  rewrite Hex in Hexec. simpl in Hexec. clear Hex.
  set (run := RunTask options (RefCount raw =? 1)%nat _ _) in Hexec.
  set (queue := RegisteredTasks _ _ _) in Hexec.
  set (data0 := Build_TQuantizedBuilderData _ _ _ _ _) in Hexec.
  assert (length (DstFloatFeatures (Data provider))
            = GetFloatFeatureCount (RawFeaturesLayout raw) /\
          length (DstCatFeatures (Data provider))
            = GetCatFeatureCount (RawFeaturesLayout raw)) as [Hlf Hlc].
  { apply (ExecTasks_invariant
             (fun d => length (DstFloatFeatures d)
                         = GetFloatFeatureCount (RawFeaturesLayout raw) /\
                       length (DstCatFeatures d)
                         = GetCatFeatureCount (RawFeaturesLayout raw))
             run queue data0); [| |done].
    - intros d c [idx|idx] d' _ [H1 H2] Hr.
      + apply RunTask_float in Hr
          as (src & h & q' & _ & _ & _ & _ & _ & -> & ->).
        by rewrite length_insert.
      + apply RunTask_cat in Hr
          as (src & _ & _ & _ & _ & -> & ->).
        by rewrite length_insert.
    - simpl. by rewrite !length_replicate. }
  split; [exact Hlf|]. split; [exact Hlc|]. split.
  - intros Hne. apply Nat.eqb_neq in Hne.
    apply (ExecTasks_invariant
             (fun d => SrcFloatFeatures d = FloatFeatures raw /\
                       SrcCatFeatures d = CatFeatures raw)
             run queue data0); [| |done].
    + intros d c [idx|idx] d' _ [H1 H2] Hr; unfold run in Hr; rewrite Hne in Hr.
      * apply RunTask_float in Hr
          as (src & h & q' & _ & _ & _ & -> & -> & _); done.
      * apply RunTask_cat in Hr
          as (src & _ & _ & -> & -> & _); done.
    + done.
  - intros Hone. apply Nat.eqb_eq in Hone.
    assert (forall d task d', run d task = Done d' ->
              (forall idx src, SrcFloatFeatures d' !! idx = Some (Some src) ->
                               SrcFloatFeatures d !! idx = Some (Some src)) /\
              (forall idx src, SrcCatFeatures d' !! idx = Some (Some src) ->
                               SrcCatFeatures d !! idx = Some (Some src)))
      as Hshrink.
    { intros d [j|j] d' Hr; unfold run in Hr; rewrite Hone in Hr.
      - apply RunTask_float in Hr
          as (src & h & q' & _ & _ & _ & -> & -> & _).
        split; [|done]. intros idx s. apply insert_None_lookup.
      - apply RunTask_cat in Hr
          as (src & _ & _ & -> & -> & _).
        split; [done|]. intros idx s. apply insert_None_lookup. }
    split; [|split; [|split]].
    + intros idx src Havail.
      revert src.
      apply (ExecTasks_establishes
               (fun d => forall src,
                           SrcFloatFeatures d !! idx <> Some (Some src))
               (fun _ => True) run (FloatFeatureTask idx) queue data0);
        [| | |exists est; by apply RegisteredTasks_float|by left|done].
      * intros d task d' Hr Hp src Hs.
        apply (Hshrink d task d' Hr) in Hs. by apply (Hp src).
      * intros d d' Hr _ src. unfold run in Hr. rewrite Hone in Hr.
        apply RunTask_float in Hr
          as (s & h & q' & Hs & _ & _ & -> & _).
        rewrite list_lookup_insert_eq; [discriminate|].
        by apply lookup_lt_Some in Hs.
      * done.
    + intros idx src Havail.
      revert src.
      apply (ExecTasks_establishes
               (fun d => forall src,
                           SrcCatFeatures d !! idx <> Some (Some src))
               (fun _ => True) run (CatFeatureTask idx) queue data0);
        [| | |eexists; by apply RegisteredTasks_cat|by left|done].
      * intros d task d' Hr Hp src Hs.
        apply (Hshrink d task d' Hr) in Hs. by apply (Hp src).
      * intros d d' Hr _ src. unfold run in Hr. rewrite Hone in Hr.
        apply RunTask_cat in Hr
          as (s & Hs & _ & _ & -> & _).
        rewrite list_lookup_insert_eq; [discriminate|].
        by apply lookup_lt_Some in Hs.
      * done.
    + intros idx Hun.
      apply (ExecTasks_invariant
               (fun d => SrcFloatFeatures d !! idx = FloatFeatures raw !! idx)
               run queue data0); [| |done].
      * intros d c [j|j] d' Hin Hi Hr; unfold run in Hr; rewrite Hone in Hr.
        -- apply RegisteredTasks_float in Hin as [_ Hj].
           apply RunTask_float in Hr
             as (src & h & q' & _ & _ & _ & -> & _).
           rewrite list_lookup_insert_ne; [done|]. by intros ->.
        -- apply RunTask_cat in Hr
             as (src & _ & _ & -> & _); done.
      * done.
    + intros idx Hun.
      apply (ExecTasks_invariant
               (fun d => SrcCatFeatures d !! idx = CatFeatures raw !! idx)
               run queue data0); [| |done].
      * intros d c [j|j] d' Hin Hi Hr; unfold run in Hr; rewrite Hone in Hr.
        -- apply RunTask_float in Hr
             as (src & h & q' & _ & _ & _ & _ & -> & _); done.
        -- apply RegisteredTasks_cat in Hin as [_ Hj].
           apply RunTask_cat in Hr
             as (src & _ & _ & _ & -> & _).
           rewrite list_lookup_insert_ne; [done|]. by intros ->.
      * done.
Qed.
Lemma insert_slot_at {A} (P : nat -> A -> Prop) (slots : list (option A)) i x :
  (forall idx h, slots !! idx = Some (Some h) -> P idx h) -> P i x ->
  forall idx h, <[i := Some x]> slots !! idx = Some (Some h) -> P idx h.
Proof.
  intros Hs Hx idx h. destruct (decide (i = idx)) as [->|Hne].
  - destruct (decide (idx < length slots)%nat).
    + rewrite list_lookup_insert_eq by done. by intros [= <-].
    + rewrite list_insert_ge by lia. apply Hs.
  - rewrite list_lookup_insert_ne by done. apply Hs.
Qed.

Lemma insert_slot_filled {A} (slots : list (option A)) i x idx :
  (exists h, slots !! idx = Some (Some h)) ->
  exists h, <[i := Some x]> slots !! idx = Some (Some h).
Proof.
  intros [h Hh]. destruct (decide (i = idx)) as [->|Hne].
  - exists x. rewrite list_lookup_insert_eq; [done|].
    by apply lookup_lt_Some in Hh.
  - exists h. by rewrite list_lookup_insert_ne.
Qed.

Lemma Src_after_task {A} (clear : bool) (l : list (option A)) i j x :
  (if clear then <[i := None]> l else l) !! j = Some (Some x) ->
  l !! j = Some (Some x).
Proof. destruct clear; [apply insert_None_lookup|done]. Qed.

Lemma Src_other_task {A} (clear : bool) (l : list (option A)) i j :
  i <> j -> (if clear then <[i := None]> l else l) !! j = l !! j.
Proof. intros Hne. destruct clear; [by rewrite list_lookup_insert_ne|done]. Qed.

(** X11. In the result of [Do] a destination slot is filled only for an
    available feature of the layout whose source column exists; the
    holder in it carries the id of that column and the full subset of as
    many rows as the data has objects, which is also the subset of the
    result. *)
Theorem Do_filled_slots options raw q rand cpuRamUsage provider :
  Do options raw q rand cpuRamUsage = Done provider ->
  QuantizedSubsetIndexing provider = TFullSubset (ObjectCount raw) /\
  (forall idx h,
     DstFloatFeatures (Data provider) !! idx = Some (Some h) ->
     FloatFeatureAvailable (RawFeaturesLayout raw) !! idx = Some true /\
     exists src,
       FloatFeatures raw !! idx = Some (Some src) /\
       FloatHolderId h = FloatId src /\
       FloatHolderSubset h = TFullSubset (ObjectCount raw)) /\
  (forall idx h,
     DstCatFeatures (Data provider) !! idx = Some (Some h) ->
     CatFeatureAvailable (RawFeaturesLayout raw) !! idx = Some true /\
     exists src,
       CatFeatures raw !! idx = Some (Some src) /\
       CatHolderId h = CatId src /\
       CatHolderSubset h = TFullSubset (ObjectCount raw)).
Proof.
  intros Hdo.
  apply Do_done in Hdo as (_ & est & _ & Hex & _ & _ & Hsub & Hexec).
  rewrite Hex in Hexec. simpl in Hexec. clear Hex.
  split; [exact Hsub|].
  set (clear := (RefCount raw =? 1)%nat) in Hexec.
  set (run := RunTask options clear _ _) in Hexec.
  set (queue := RegisteredTasks _ _ _) in Hexec.
  set (data0 := Build_TQuantizedBuilderData _ _ _ _ _) in Hexec.
  set (PF := fun idx h =>
               FloatFeatureAvailable (RawFeaturesLayout raw) !! idx = Some true /\
               exists src,
                 FloatFeatures raw !! idx = Some (Some src) /\
                 FloatHolderId h = FloatId src /\
                 FloatHolderSubset h = TFullSubset (ObjectCount raw)).
  set (PC := fun idx h =>
               CatFeatureAvailable (RawFeaturesLayout raw) !! idx = Some true /\
               exists src,
                 CatFeatures raw !! idx = Some (Some src) /\
                 CatHolderId h = CatId src /\
                 CatHolderSubset h = TFullSubset (ObjectCount raw)).
  enough ((forall idx src, SrcFloatFeatures (Data provider) !! idx = Some (Some src) ->
                           FloatFeatures raw !! idx = Some (Some src)) /\
          (forall idx src, SrcCatFeatures (Data provider) !! idx = Some (Some src) ->
                           CatFeatures raw !! idx = Some (Some src)) /\
          (forall idx h, DstFloatFeatures (Data provider) !! idx = Some (Some h) ->
                         PF idx h) /\
          (forall idx h, DstCatFeatures (Data provider) !! idx = Some (Some h) ->
                         PC idx h)) as (_ & _ & HF & HC) by done.
  apply (ExecTasks_invariant
           (fun d =>
              (forall idx src, SrcFloatFeatures d !! idx = Some (Some src) ->
                               FloatFeatures raw !! idx = Some (Some src)) /\
              (forall idx src, SrcCatFeatures d !! idx = Some (Some src) ->
                               CatFeatures raw !! idx = Some (Some src)) /\
              (forall idx h, DstFloatFeatures d !! idx = Some (Some h) ->
                             PF idx h) /\
              (forall idx h, DstCatFeatures d !! idx = Some (Some h) ->
                             PC idx h))
           run queue data0); [| |done].
  - intros d c [j|j] d' Hin (Hsf & Hsc & Hdf & Hdc) Hr.
    + apply RegisteredTasks_float in Hin as [_ Hj].
      apply RunTask_float in Hr
        as (src & h & q' & Hs & Hp & _ & -> & -> & -> & ->).
      apply ProcessFloatFeature_info in Hp as (Hid & Hsb & _).
      split; [|split; [done|split; [|done]]].
      * intros idx s Hl. apply Src_after_task in Hl. by apply Hsf.
      * apply insert_slot_at; [done|].
        split; [done|]. exists src. split; [by apply Hsf|done].
    + apply RegisteredTasks_cat in Hin as [_ Hj].
      apply RunTask_cat in Hr
        as (src & Hs & _ & -> & -> & -> & ->).
      destruct (ProcessCatFeature_holder j src options clear
                  (TFullSubset (ObjectCount raw)) (QuantizedFeaturesInfo d))
        as [Hid Hsb].
      split; [done|split; [|split; [done|]]].
      * intros idx s Hl. apply Src_after_task in Hl. by apply Hsc.
      * apply insert_slot_at; [done|].
        split; [done|]. exists src. split; [by apply Hsc|done].
  - simpl. split; [done|]. split; [done|].
    split; intros idx h Hl; by apply replicate_None_slot in Hl.
Qed.

(** X12. In the result of [Do] every available float feature whose
    source column exists has its slot filled and a nan mode stored in the
    metadata, and every available categorical feature whose source
    column exists has its slot filled and a perfect hash stored. *)
Theorem Do_processes_available options raw q rand cpuRamUsage provider :
  Do options raw q rand cpuRamUsage = Done provider ->
  (forall idx src,
     FloatFeatureAvailable (RawFeaturesLayout raw) !! idx = Some true ->
     FloatFeatures raw !! idx = Some (Some src) ->
     (exists h, DstFloatFeatures (Data provider) !! idx = Some (Some h)) /\
     HasNanMode (QuantizedFeaturesInfo (Data provider)) idx = true) /\
  (forall idx src,
     CatFeatureAvailable (RawFeaturesLayout raw) !! idx = Some true ->
     CatFeatures raw !! idx = Some (Some src) ->
     (exists h, DstCatFeatures (Data provider) !! idx = Some (Some h)) /\
     is_Some (CatFeaturesPerfectHash (QuantizedFeaturesInfo (Data provider))
                !! idx)).
Proof.
  intros Hdo.
  apply Do_done in Hdo as (_ & est & _ & Hex & _ & _ & _ & Hexec).
  rewrite Hex in Hexec. simpl in Hexec. clear Hex.
  set (clear := (RefCount raw =? 1)%nat) in Hexec.
  set (run := RunTask options clear _ _) in Hexec.
  set (queue := RegisteredTasks _ _ _) in Hexec.
  set (data0 := Build_TQuantizedBuilderData _ _ _ _ _) in Hexec.
  split.
  - intros idx src Havail Hsrc.
    enough ((idx < length (DstFloatFeatures (Data provider)))%nat /\
            (exists h, DstFloatFeatures (Data provider) !! idx = Some (Some h)) /\
            HasNanMode (QuantizedFeaturesInfo (Data provider)) idx = true)
      as (_ & ? & ?) by done.
    apply (ExecTasks_establishes
             (fun d =>
                (idx < length (DstFloatFeatures d))%nat /\
                (exists h, DstFloatFeatures d !! idx = Some (Some h)) /\
                HasNanMode (QuantizedFeaturesInfo d) idx = true)
             (fun d =>
                (idx < length (DstFloatFeatures d))%nat /\
                exists s, SrcFloatFeatures d !! idx = Some (Some s))
             run (FloatFeatureTask idx) queue data0);
      [| | |exists est; by apply RegisteredTasks_float| |done].
    + intros d [j|j] d' Hr (Hlen & Hfill & Hmode).
      * apply RunTask_float in Hr
          as (s & h & q' & _ & Hp & <- & _ & _ & -> & _).
        apply ProcessFloatFeature_info in Hp
          as (_ & _ & _ & _ & _ & _ & _ & Hkeep & _).
        split; [by rewrite length_insert|].
        split; [by apply insert_slot_filled|].
        unfold HasNanMode in Hmode.
        apply bool_decide_eq_true in Hmode as [m Hm].
        by apply (HasNanMode_lookup _ _ m), Hkeep.
      * apply RunTask_cat in Hr
          as (s & _ & -> & _ & _ & -> & _).
        rewrite ProcessCatFeature_info. done.
    + intros d d' Hr [Hlen [s Hs]].
      apply RunTask_float in Hr
        as (s' & h & q' & _ & Hp & <- & _ & _ & -> & _).
      apply ProcessFloatFeature_info in Hp
        as (_ & _ & _ & _ & _ & _ & Hmode & _).
      split; [by rewrite length_insert|].
      split; [|done]. exists h. by rewrite list_lookup_insert_eq.
    + intros d [j|j] d' Hne Hr [Hlen [s Hs]].
      * apply RunTask_float in Hr
          as (s' & h & q' & _ & _ & _ & -> & _ & -> & _).
        split; [by rewrite length_insert|]. exists s.
        rewrite Src_other_task; [done|]. by intros ->.
      * apply RunTask_cat in Hr
          as (s' & _ & _ & -> & _ & -> & _); eauto.
    + left. simpl. rewrite length_replicate. split; [|eauto].
      apply lookup_lt_Some in Havail. by unfold GetFloatFeatureCount.
  - intros idx src Havail Hsrc.
    enough ((idx < length (DstCatFeatures (Data provider)))%nat /\
            (exists h, DstCatFeatures (Data provider) !! idx = Some (Some h)) /\
            is_Some (CatFeaturesPerfectHash
                       (QuantizedFeaturesInfo (Data provider)) !! idx))
      as (_ & ? & ?) by done.
    apply (ExecTasks_establishes
             (fun d =>
                (idx < length (DstCatFeatures d))%nat /\
                (exists h, DstCatFeatures d !! idx = Some (Some h)) /\
                is_Some (CatFeaturesPerfectHash (QuantizedFeaturesInfo d)
                           !! idx))
             (fun d =>
                (idx < length (DstCatFeatures d))%nat /\
                exists s, SrcCatFeatures d !! idx = Some (Some s))
             run (CatFeatureTask idx) queue data0);
      [| | |eexists; by apply RegisteredTasks_cat| |done].
    + intros d [j|j] d' Hr (Hlen & Hfill & Hhash).
      * apply RunTask_float in Hr
          as (s & h & q' & _ & Hp & <- & _ & _ & _ & ->).
        apply ProcessFloatFeature_info in Hp
          as (_ & _ & _ & _ & _ & -> & _).
        done.
      * apply RunTask_cat in Hr
          as (s & _ & -> & _ & _ & _ & ->).
        rewrite ProcessCatFeature_info. simpl.
        split; [by rewrite length_insert|].
        split; [by apply insert_slot_filled|].
        destruct (decide (j = idx)) as [->|Hne].
        -- rewrite lookup_insert_eq. eauto.
        -- by rewrite lookup_insert_ne.
    + intros d d' Hr [Hlen [s Hs]].
      apply RunTask_cat in Hr
        as (s' & _ & -> & _ & _ & _ & ->).
      rewrite ProcessCatFeature_info. simpl.
      split; [by rewrite length_insert|].
      split; [|rewrite lookup_insert_eq; eauto].
      eexists. by rewrite list_lookup_insert_eq.
    + intros d [j|j] d' Hne Hr [Hlen [s Hs]].
      * apply RunTask_float in Hr
          as (s' & h & q' & _ & _ & _ & _ & -> & _ & ->); eauto.
      * apply RunTask_cat in Hr
          as (s' & _ & _ & _ & -> & _ & ->).
        split; [by rewrite length_insert|]. exists s.
        rewrite Src_other_task; [done|]. by intros ->.
    + left. simpl. rewrite length_replicate. split; [|eauto].
      apply lookup_lt_Some in Havail. by unfold GetCatFeatureCount.
Qed.
(** X13. The metadata in the result of [Do] has the layout, the
    binarization options and the flag for NaNs in test data it was given;
    a nan mode that was stored is still stored and so are stored borders
    that are not empty; and the entries of the features that are not
    available in the layout of the data are as they were. *)
Theorem Do_metadata options raw q rand cpuRamUsage provider :
  Do options raw q rand cpuRamUsage = Done provider ->
  let q' := QuantizedFeaturesInfo (Data provider) in
  FeaturesLayout q' = FeaturesLayout q /\
  FloatFeatureBinarization q' = FloatFeatureBinarization q /\
  FloatFeaturesAllowNansInTestOnly q' = FloatFeaturesAllowNansInTestOnly q /\
  (forall idx nanMode, NanModes q !! idx = Some nanMode ->
                       NanModes q' !! idx = Some nanMode) /\
  (forall idx borders, Borders q !! idx = Some borders -> borders <> [] ->
                       Borders q' !! idx = Some borders) /\
  (forall idx,
     FloatFeatureAvailable (RawFeaturesLayout raw) !! idx <> Some true ->
     NanModes q' !! idx = NanModes q !! idx /\
     Borders q' !! idx = Borders q !! idx) /\
  (forall idx,
     CatFeatureAvailable (RawFeaturesLayout raw) !! idx <> Some true ->
     CatFeaturesPerfectHash q' !! idx = CatFeaturesPerfectHash q !! idx).
Proof.
  intros Hdo q'. unfold q'. clear q'.
  apply Do_done in Hdo as (_ & est & _ & Hex & _ & _ & _ & Hexec).
  rewrite Hex in Hexec. simpl in Hexec. clear Hex.
  set (clear := (RefCount raw =? 1)%nat) in Hexec.
  set (run := RunTask options clear _ _) in Hexec.
  set (queue := RegisteredTasks _ _ _) in Hexec.
  set (data0 := Build_TQuantizedBuilderData _ _ _ _ _) in Hexec.
  assert (let q' := QuantizedFeaturesInfo (Data provider) in
          FeaturesLayout q' = FeaturesLayout q /\
          FloatFeatureBinarization q' = FloatFeatureBinarization q /\
          FloatFeaturesAllowNansInTestOnly q'
            = FloatFeaturesAllowNansInTestOnly q /\
          (forall idx nanMode, NanModes q !! idx = Some nanMode ->
                               NanModes q' !! idx = Some nanMode) /\
          (forall idx borders, Borders q !! idx = Some borders ->
                               borders <> [] ->
                               Borders q' !! idx = Some borders))
    as (H1 & H2 & H3 & H4 & H5).
  { apply (ExecTasks_invariant
             (fun d =>
                let q' := QuantizedFeaturesInfo d in
                FeaturesLayout q' = FeaturesLayout q /\
                FloatFeatureBinarization q' = FloatFeatureBinarization q /\
                FloatFeaturesAllowNansInTestOnly q'
                  = FloatFeaturesAllowNansInTestOnly q /\
                (forall idx nanMode, NanModes q !! idx = Some nanMode ->
                                     NanModes q' !! idx = Some nanMode) /\
                (forall idx borders, Borders q !! idx = Some borders ->
                                     borders <> [] ->
                                     Borders q' !! idx = Some borders))
             run queue data0); [|done|done].
    intros d c [j|j] d' _ (I1 & I2 & I3 & I4 & I5) Hr; cbv zeta.
    - apply RunTask_float in Hr
        as (s & h & q1 & _ & Hp & <- & _).
      apply ProcessFloatFeature_info in Hp
        as (_ & _ & -> & -> & -> & _ & _ & Hkm & Hkb & _).
      repeat split; try done.
      + intros idx m Hl. by apply Hkm, I4.
      + intros idx b Hl Hne. apply Hkb; [|done]. by apply I5.
    - apply RunTask_cat in Hr as (s & _ & -> & _).
      rewrite ProcessCatFeature_info. done. }
  do 5 (split; [done|]). split.
  - intros idx Hun.
    apply (ExecTasks_invariant
             (fun d => NanModes (QuantizedFeaturesInfo d) !! idx
                         = NanModes q !! idx /\
                       Borders (QuantizedFeaturesInfo d) !! idx
                         = Borders q !! idx)
             run queue data0); [|done|done].
    intros d c [j|j] d' Hin [In Ib] Hr.
    + apply RegisteredTasks_float in Hin as [_ Hj].
      apply RunTask_float in Hr
        as (s & h & q1 & _ & Hp & <- & _).
      apply ProcessFloatFeature_info in Hp
        as (_ & _ & _ & _ & _ & _ & _ & _ & _ & Hframe).
      destruct (Hframe idx) as [-> ->]; [by intros ->|done].
    + apply RunTask_cat in Hr as (s & _ & -> & _).
      rewrite ProcessCatFeature_info. done.
  - intros idx Hun.
    apply (ExecTasks_invariant
             (fun d => CatFeaturesPerfectHash (QuantizedFeaturesInfo d) !! idx
                       = CatFeaturesPerfectHash q !! idx)
             run queue data0); [|done|done].
    intros d c [j|j] d' Hin Ih Hr.
    + apply RunTask_float in Hr
        as (s & h & q1 & _ & Hp & <- & _).
      apply ProcessFloatFeature_info in Hp
        as (_ & _ & _ & _ & _ & -> & _). done.
    + apply RegisteredTasks_cat in Hin as [_ Hj].
      apply RunTask_cat in Hr as (s & _ & -> & _).
      rewrite ProcessCatFeature_info. simpl.
      rewrite lookup_insert_ne; [done|]. by intros ->.
Qed.
Lemma UniformRange_ge rand min max :
  (min <= (UniformRange rand min max).1)%nat.
Proof.
  unfold UniformRange. destruct (Uniform rand (max - min)). simpl. lia.
Qed.

Lemma SwapAt_take v i j n :
  (n <= i)%nat -> (n <= j)%nat -> take n (SwapAt v i j) = take n v.
Proof.
  intros Hi Hj. unfold SwapAt.
  destruct (v !! i), (v !! j); try done.
  by rewrite !take_insert_ge.
Qed.

Lemma PartialShuffle_take objectCount steps n v rand :
  Forall (fun i => (n <= i)%nat) steps ->
  take n (fold_left (PartialShuffleStep objectCount) steps (v, rand)).1
  = take n v.
Proof.
  revert v rand. induction steps as [|i steps IH]; intros v rand Hsteps;
    simpl; [done|].
  apply Forall_cons in Hsteps as [Hi Hsteps].
  pose proof (UniformRange_ge rand i objectCount) as Hj.
  destruct (UniformRange rand i objectCount) as [j rand']. simpl in Hj.
  rewrite IH by done. apply SwapAt_take; lia.
Qed.

Lemma PartialShuffleSwaps_fold objectCount steps v rand :
  (fold_left (PartialShuffleStep objectCount) steps (v, rand)).1
  = fold_left (fun v '(i, j) => SwapAt v i j)
      (PartialShuffleSwaps objectCount steps rand) v.
Proof.
  revert v rand. induction steps as [|i steps IH]; intros v rand; simpl;
    [done|].
  destruct (UniformRange rand i objectCount) as [j rand']. simpl.
  apply IH.
Qed.

Lemma PartialShuffleSwaps_bounds objectCount steps rand :
  (forall r n, (0 < n)%nat -> ((Uniform r n).1 < n)%nat) ->
  Forall (fun i => (i < objectCount)%nat) steps ->
  Forall (fun '(i, j) => (i <= j < objectCount)%nat)
    (PartialShuffleSwaps objectCount steps rand).
Proof.
  intros Hu. revert rand.
  induction steps as [|i steps IH]; intros rand Hsteps; simpl; [done|].
  apply Forall_cons in Hsteps as [Hi Hsteps].
  unfold UniformRange.
  pose proof (Hu rand (objectCount - i)%nat ltac:(lia)) as Hx.
  destruct (Uniform rand (objectCount - i)) as [x rand']. simpl in Hx.
  apply Forall_cons. split; [lia|]. by apply IH.
Qed.

(** X14. When [Uniform] keeps its contract, a value below its bound, and
    the sample is at most as long as the vector, every round [i] of the
    partial shuffle swaps position [i] with a position [j] for which
    [i <= j < objectCount]: both are inside the vector, and the vector the
    loop leaves is the vector after these swaps. *)
Theorem PartialShuffle_in_bounds objectCount sampleSize rand :
  (forall r n, (0 < n)%nat -> ((Uniform r n).1 < n)%nat) ->
  (sampleSize <= objectCount)%nat ->
  let swaps := PartialShuffleSwaps objectCount (seq 0 sampleSize) rand in
  Forall (fun '(i, j) => (i <= j < objectCount)%nat) swaps /\
  map fst swaps = seq 0 sampleSize /\
  (fold_left (PartialShuffleStep objectCount) (seq 0 sampleSize)
     (seq 0 objectCount, rand)).1
  = fold_left (fun v '(i, j) => SwapAt v i j) swaps (seq 0 objectCount).
Proof.
  intros Hu Hle swaps. split; [|split].
  - apply PartialShuffleSwaps_bounds; [done|].
    apply Forall_forall. intros i Hi%elem_of_seq. lia.
  - unfold swaps. clear. generalize (seq 0 sampleSize) as steps. revert rand.
    intros rand steps. revert rand.
    induction steps as [|i steps IH]; intros rand; simpl; [done|].
    destruct (UniformRange rand i objectCount) as [j rand']. simpl.
    by rewrite IH.
  - apply PartialShuffleSwaps_fold.
Qed.

(** X15. The partial shuffle fixes its result from the front: round [i]
    swaps position [i] with a position that is not before it, so the first
    [sampleSize] elements after [sampleSize'] rounds, for
    [sampleSize <= sampleSize'], are those after [sampleSize] rounds from
    the same generator.  A longer sample extends a shorter one. *)
Theorem PartialShuffle_prefix objectCount sampleSize sampleSize' v rand :
  (sampleSize <= sampleSize')%nat ->
  take sampleSize
    (take sampleSize'
       (fold_left (PartialShuffleStep objectCount) (seq 0 sampleSize')
          (v, rand)).1)
  = take sampleSize
      (fold_left (PartialShuffleStep objectCount) (seq 0 sampleSize)
         (v, rand)).1.
Proof.
  intros Hle. rewrite take_take, Nat.min_l by done.
  replace sampleSize' with (sampleSize + (sampleSize' - sampleSize))%nat
    by lia.
  rewrite seq_app, fold_left_app. simpl.
  destruct (fold_left (PartialShuffleStep objectCount) (seq 0 sampleSize)
              (v, rand)) as [v1 rand1].
  apply PartialShuffle_take.
  apply Forall_forall. intros i Hi%elem_of_seq. lia.
Qed.

End Quantization.

(** ** The theorems on sample inputs *)

(** The nan mode on a column with a NaN under the Forbidden mode, and on
    a column without NaN under the Min mode. *)
Lemma CalcBordersAndNanMode_nan_mode_witness :
  CalcBordersAndNanMode MidpointBestSplit
    (SampleFloatFeature [one; S754_nan; two]) (TFullSubset 3)
    (SampleInfo ENanMode.Forbidden false ∅ ∅)
  = Failed (EnsureFailed (NansNotAllowed 0)) /\
  (exists borders,
     CalcBordersAndNanMode MidpointBestSplit
       (SampleFloatFeature [one; three; two]) (TFullSubset 3)
       (SampleInfo ENanMode.Min false ∅ ∅)
     = Done (ENanMode.Forbidden, borders)).
Proof.
  split.
  - apply (CalcBordersAndNanMode_nan_mode MidpointBestSplit
             (SampleFloatFeature [one; S754_nan; two]) (TFullSubset 3)
             (SampleInfo ENanMode.Forbidden false ∅ ∅)); reflexivity.
  - apply (CalcBordersAndNanMode_nan_mode MidpointBestSplit
             (SampleFloatFeature [one; three; two]) (TFullSubset 3)
             (SampleInfo ENanMode.Min false ∅ ∅)).
    + intros [H _]. discriminate H.
    + vm_compute. lia.
Defined.

(** The count of borders on a column whose borders are returned, and
    with a selection of 256 borders. *)
Lemma CalcBordersAndNanMode_border_count_witness :
  (length [lowest; Midpoint one two] < 256)%nat /\
  CalcBordersAndNanMode ManyBorders
    (SampleFloatFeature [one; two]) (TFullSubset 2)
    (SampleInfo ENanMode.Min false ∅ ∅)
  = Failed VerifyFailed.
Proof.
  split.
  - apply (proj1 (CalcBordersAndNanMode_border_count MidpointBestSplit
                    (SampleFloatFeature [one; S754_nan; two]) (TFullSubset 3)
                    (SampleInfo ENanMode.Min false ∅ ∅)) ENanMode.Min).
    reflexivity.
  - apply (proj2 (CalcBordersAndNanMode_border_count ManyBorders
                    (SampleFloatFeature [one; two]) (TFullSubset 2)
                    (SampleInfo ENanMode.Min false ∅ ∅))).
    + vm_compute. discriminate.
    + vm_compute. lia.
Defined.


(** The subset of four rows with a sample size of two: an ordered
    source, and a randomly shuffled one. *)
Lemma GetSubsetForBuildBorders_subset_witness :
  (exists rows rand',
     GetSubsetForBuildBorders SampleSizeAtMost CounterUniform
       (TIndexedSubset [5; 6; 7; 8]%nat) (SampleInfo ENanMode.Min false ∅ ∅)
       Ordered (SampleOptions true false 100 2) 0%nat
     = (Some (Compose (TIndexedSubset [5; 6; 7; 8]%nat) (TIndexedSubset rows)),
        rand') /\
     length rows = 2%nat) /\
  (exists subset,
     GetSubsetForBuildBorders SampleSizeAtMost CounterUniform
       (TIndexedSubset [5; 6; 7; 8]%nat) (SampleInfo ENanMode.Min false ∅ ∅)
       RandomShuffled (SampleOptions true false 100 2) 0%nat
     = (Some subset, 0%nat) /\
     SrcIndices subset = [5; 6]%nat).
Proof.
  pose proof (fun order =>
                GetSubsetForBuildBorders_subset SampleSizeAtMost CounterUniform
                  (TIndexedSubset [5; 6; 7; 8]%nat)
                  (SampleInfo ENanMode.Min false ∅ ∅)
                  order (SampleOptions true false 100 2) 0%nat eq_refl)
    as H.
  split.
  - destruct (H Ordered) as [_ Hneed].
    destruct (Hneed eq_refl) as (_ & _ & Hrows).
    destruct Hrows as (rows & rand' & Heq & Hlen & _);
      [vm_compute; lia|discriminate|].
    exists rows, rand'. split; [exact Heq|exact Hlen].
  - destruct (H RandomShuffled) as [_ Hneed].
    destruct (Hneed eq_refl) as (_ & Hfirst & _).
    destruct Hfirst as (subset & Heq & _ & Hidx & _);
      [vm_compute; lia|reflexivity|].
    exists subset. split; [exact Heq|exact Hidx].
Defined.

(** The holders of the sample dataset: a kept source
    without the CPU format gives an external holder, and in a run of [Do]
    with the CPU format for a caller that holds the data alone every slot
    holds a compressed array. *)
Lemma quantized_holder_variant_witness :
  IsExternalFloat
    (TExternalFloatValuesHolder 0 [one; three; two] (TFullSubset 3)) = true /\
  (exists provider,
     Do MidpointBestSplit SampleSizeAtMost MemoryPerSample CounterUniform
       (SampleOptions true false 100 10)
       (SampleRaw 1 Ordered [one; three; two] [5; 7; 5])
       (SampleInfo ENanMode.Min false ∅ ∅) 0%nat 150
     = Done provider /\
     forall idx h,
       DstFloatFeatures (Data provider) !! idx = Some (Some h) ->
       FloatHolderAsRequested (SampleOptions true false 100 10) true h).
Proof.
  split.
  - apply (proj1 (quantized_holder_variant MidpointBestSplit SampleSizeAtMost
                    MemoryPerSample CounterUniform
                    (SampleOptions false true 100 10)))
      with (idx := 0%nat) (srcFeature := SampleFloatFeature [one; three; two])
           (subset := TFullSubset 3) (clear := false) (dst := TFullSubset 3)
           (q := SampleInfo ENanMode.Min false ∅ ∅)
           (q' := WriteCalculated 0 ENanMode.Forbidden
                    [Midpoint one two; Midpoint two three]
                    (SampleInfo ENanMode.Min false ∅ ∅)).
    + vm_compute. reflexivity.
    + split; reflexivity.
  - eexists. split; [vm_compute; reflexivity|].
    eapply (proj2 (proj2 (quantized_holder_variant MidpointBestSplit
                            SampleSizeAtMost MemoryPerSample CounterUniform
                            (SampleOptions true false 100 10)))
              (SampleRaw 1 Ordered [one; three; two] [5; 7; 5])
              (SampleInfo ENanMode.Min false ∅ ∅) 0%nat 150).
    vm_compute. reflexivity.
Defined.

(** A constant column: the first call stores the nan mode alone and a
    second call for the same feature fails. *)
Lemma ProcessFloatFeature_presence_not_kept_witness :
  exists h q',
    ProcessFloatFeature MidpointBestSplit 0 (SampleFloatFeature [one; one])
      (TFullSubset 2) (SampleOptions true false 100 10) false (TFullSubset 2)
      (SampleInfo ENanMode.Min false ∅ ∅)
    = Done (h, q') /\
    NanModes q' !! 0%nat = Some ENanMode.Forbidden /\
    Borders q' !! 0%nat = None /\
    ProcessFloatFeature MidpointBestSplit 0 (SampleFloatFeature [one; two])
      (TFullSubset 2) (SampleOptions true false 100 10) false (TFullSubset 2)
      q'
    = Failed (EnsureInternalFailed (NanModeAndBordersMismatch 0)).
Proof.
  eexists _, _. split; [vm_compute; reflexivity|].
  split; [reflexivity|]. split; [reflexivity|].
  eapply (ProcessFloatFeature_presence_not_kept MidpointBestSplit 0
            (SampleFloatFeature [one; one]) (TFullSubset 2)
            (SampleOptions true false 100 10) false (TFullSubset 2)
            (SampleInfo ENanMode.Min false ∅ ∅));
    [reflexivity|reflexivity|reflexivity|reflexivity|].
  vm_compute. reflexivity.
Defined.


(** The sample dataset with a limit of 100 bytes and 150 bytes resident:
    the quota wraps to [2^64 - 50]. *)
Lemma Do_resource_quota_witness :
  exists provider,
    Do MidpointBestSplit SampleSizeAtMost MemoryPerSample CounterUniform
      (SampleOptions true false 100 10)
      (SampleRaw 1 Ordered [one; three; two] [5; 7; 5])
      (SampleInfo ENanMode.Min false ∅ ∅) 0%nat 150
    = Done provider /\
    WarningLog provider = [CpuRamUsageOverLimit 150 100] /\
    ResourceQuota (Executor provider) = 18446744073709551566.
Proof.
  eexists. split; [vm_compute; reflexivity|].
  edestruct (Do_resource_quota MidpointBestSplit SampleSizeAtMost
               MemoryPerSample CounterUniform
               (SampleOptions true false 100 10)
               (SampleRaw 1 Ordered [one; three; two] [5; 7; 5])
               (SampleInfo ENanMode.Min false ∅ ∅) 0%nat 150)
    as (_ & _ & Hover);
    [simpl; lia|lia|vm_compute; reflexivity|].
  destruct Hover as (Hlog & Hquota & _); [reflexivity|].
  split; [exact Hlog|exact Hquota].
Defined.

(** The scheduler on the sample dataset with a limit of 100 bytes and 20
    bytes resident: the float task of 39 bytes is admitted
    within the quota of 80, and the categorical task of 108 bytes, above
    the quota, is admitted alone once the float task has finished. *)
Lemma scheduler_within_quota_witness :
  exists provider,
    Do MidpointBestSplit SampleSizeAtMost MemoryPerSample CounterUniform
      (SampleOptions true false 100 10)
      (SampleRaw 1 Ordered [one; three; two] [5; 7; 5])
      (SampleInfo ENanMode.Min false ∅ ∅) 0%nat 20
    = Done provider /\
    Queue (Executor provider)
    = [(39, FloatFeatureTask 0); (108, CatFeatureTask 0)] /\
    WithinQuota (ResourceQuota (Executor provider))
      {| Ready := [];
         InFlight := [(108, CatFeatureTask 0)];
         Finished := [(39, FloatFeatureTask 0)] |}.
Proof.
  eexists. split; [vm_compute; reflexivity|]. split; [reflexivity|].
  eapply (scheduler_within_quota MidpointBestSplit SampleSizeAtMost
            MemoryPerSample CounterUniform
            (SampleOptions true false 100 10)
            (SampleRaw 1 Ordered [one; three; two] [5; 7; 5])
            (SampleInfo ENanMode.Min false ∅ ∅) 0%nat 20 _ 3);
    [vm_compute; reflexivity|].
  eapply nsteps_l.
  { apply (StepAdmit _ [] (39, FloatFeatureTask 0) [(108, CatFeatureTask 0)]
             [] []).
    vm_compute. discriminate. }
  eapply nsteps_l.
  { apply (StepComplete _ [(108, CatFeatureTask 0)] []
             (39, FloatFeatureTask 0) [] []). }
  eapply nsteps_l.
  { apply (StepAdmitOversized _ [] (108, CatFeatureTask 0) []
             [(39, FloatFeatureTask 0)]).
    vm_compute. reflexivity. }
  apply nsteps_O.
Defined.

(** ** The further properties on sample inputs *)

(** Three objects, and [2^27] objects, with the quantized data stored. *)
Lemma EstimateMaxMemUsageForCatFeature_wraps_witness :
  EstimateMaxMemUsageForCatFeature 3 (SampleOptions true false 100 10) false
  = 108 /\
  EstimateMaxMemUsageForCatFeature (Z.to_nat (2 ^ 27))
    (SampleOptions true false 100 10) false + 2 ^ 32
  <= 36 * 2 ^ 27.
Proof.
  split.
  - apply (proj1 (EstimateMaxMemUsageForCatFeature_wraps 3
                    (SampleOptions true false 100 10) false)).
    reflexivity.
  - pose proof (proj2 (EstimateMaxMemUsageForCatFeature_wraps
                         (Z.to_nat (2 ^ 27))
                         (SampleOptions true false 100 10) false)) as H.
    cbv zeta in H.
    assert (2 ^ 27 <= Z.of_nat (Z.to_nat (2 ^ 27)) < 2 ^ 32) as Hr by lia.
    apply H in Hr as [_ Hr].
    rewrite Z2Nat.id in Hr by lia.
    change (CpuCompatibleFormat (SampleOptions true false 100 10) || false)
      with true in Hr.
    cbv iota in Hr.
    eapply Z.le_trans; [exact Hr|]. vm_compute. discriminate.
Defined.

(** A border count of [2^31] with the CPU format requested. *)
Lemma Do_bad_cast_witness :
  Do MidpointBestSplit SampleSizeAtMost MemoryPerSample CounterUniform
    (SampleOptions true false 100 10)
    (SampleRaw 2 Ordered [one; three; two] [5; 7; 5])
    (SampleInfoWithBorderCount (Z.to_nat (2 ^ 31))) 0%nat 50
  = Failed BadCast.
Proof.
  apply (Do_bad_cast MidpointBestSplit SampleSizeAtMost MemoryPerSample
           CounterUniform (SampleOptions true false 100 10)
           (SampleRaw 2 Ordered [one; three; two] [5; 7; 5])
           (SampleInfoWithBorderCount (Z.to_nat (2 ^ 31))) 0%nat 50).
  split; [reflexivity|]. split; [reflexivity|].
  change (2 ^ 31 - 1 < Z.of_nat (Z.to_nat (2 ^ 31))). lia.
Defined.

(** X4. With a nan mode and borders that are not empty stored for the
    feature, [ProcessFloatFeature] uses them: the outcome is the same for
    every border selection and every subset for the borders, the
    metadata is returned as it was, and the only failure left is the one
    about a NaN met while quantizing under the stored Forbidden mode. *)
Theorem ProcessFloatFeature_reuses_stored
  (BestSplit BestSplit' : list float -> nat -> EBorderSelectionType -> THashSet)
  idx srcFeature subset subset' options clear dst q :
  HasNanMode q idx = true ->
  StoredBorders q idx <> [] ->
  ProcessFloatFeature BestSplit idx srcFeature subset options clear dst q
  = ProcessFloatFeature BestSplit' idx srcFeature subset' options clear dst q /\
  (forall h q',
     ProcessFloatFeature BestSplit idx srcFeature subset options clear dst q
       = Done (h, q') ->
     q' = q) /\
  (forall f,
     ProcessFloatFeature BestSplit idx srcFeature subset options clear dst q
       = Failed f ->
     f = EnsureFailed (NansInQuantize (FloatId srcFeature)) /\
     GetNanMode q idx = ENanMode.Forbidden).
Proof.
  intros Hm Hb. rewrite !ProcessFloatFeature_cases, Hm.
  destruct (StoredBorders q idx) as [|b0 bs]; [done|]. simpl.
  split; [reflexivity|].
  destruct (MakeFloatHolder _ _ _ _ _ _ _) as [h0|f0] eqn:E; simpl.
  - split; [by intros h q' [= _ <-]|discriminate].
  - split; [discriminate|]. intros f [= <-].
    by apply MakeFloatHolder_failed in E as (? & ? & _).
Qed.

(** Feature 0 of the sample with stored Min mode and one border, under
    two border selections. *)
Lemma ProcessFloatFeature_reuses_stored_witness :
  ProcessFloatFeature MidpointBestSplit 0 (SampleFloatFeature [one; three; two])
    (TFullSubset 3) (SampleOptions true false 100 10) false (TFullSubset 3)
    (SampleInfo ENanMode.Forbidden false {[ 0%nat := ENanMode.Min ]}
       {[ 0%nat := [Midpoint one two] ]})
  = ProcessFloatFeature ManyBorders 0 (SampleFloatFeature [one; three; two])
      (TIndexedSubset [0%nat]) (SampleOptions true false 100 10) false
      (TFullSubset 3)
      (SampleInfo ENanMode.Forbidden false {[ 0%nat := ENanMode.Min ]}
         {[ 0%nat := [Midpoint one two] ]}).
Proof.
  apply (ProcessFloatFeature_reuses_stored MidpointBestSplit ManyBorders 0
           (SampleFloatFeature [one; three; two]) (TFullSubset 3)
           (TIndexedSubset [0%nat]) (SampleOptions true false 100 10) false
           (TFullSubset 3)
           (SampleInfo ENanMode.Forbidden false {[ 0%nat := ENanMode.Min ]}
              {[ 0%nat := [Midpoint one two] ]}));
    [reflexivity|vm_compute; discriminate].
Defined.

(** Feature 0 is processed while feature 1 has a nan mode and borders
    stored. *)
Lemma ProcessFloatFeature_frame_witness :
  exists h q',
    ProcessFloatFeature MidpointBestSplit 0
      (SampleFloatFeature [one; three; two]) (TFullSubset 3)
      (SampleOptions true false 100 10) false (TFullSubset 3)
      (SampleInfo ENanMode.Min false {[ 1%nat := ENanMode.Max ]}
         {[ 1%nat := [one] ]})
    = Done (h, q') /\
    NanModes q' !! 1%nat = Some ENanMode.Max /\
    Borders q' !! 1%nat = Some [one].
Proof.
  eexists _, _. split; [vm_compute; reflexivity|].
  edestruct (ProcessFloatFeature_frame MidpointBestSplit 0
               (SampleFloatFeature [one; three; two]) (TFullSubset 3)
               (SampleOptions true false 100 10) false (TFullSubset 3)
               (SampleInfo ENanMode.Min false {[ 1%nat := ENanMode.Max ]}
                  {[ 1%nat := [one] ]}))
    as (_ & _ & _ & _ & H); [vm_compute; reflexivity|].
  destruct (H 1%nat) as [H1 H2]; [discriminate|].
  split; [exact H1|exact H2].
Defined.

(** The sample column is quantized twice, the second time with another
    subset for the borders. *)
Lemma ProcessFloatFeature_again_witness :
  exists h q',
    ProcessFloatFeature MidpointBestSplit 0
      (SampleFloatFeature [one; three; two]) (TFullSubset 3)
      (SampleOptions true false 100 10) false (TFullSubset 3)
      (SampleInfo ENanMode.Min false ∅ ∅)
    = Done (h, q') /\
    ProcessFloatFeature MidpointBestSplit 0
      (SampleFloatFeature [one; three; two]) (TIndexedSubset [0%nat])
      (SampleOptions true false 100 10) false (TFullSubset 3) q'
    = Done (h, q').
Proof.
  eexists _, _. split; [vm_compute; reflexivity|].
  apply (ProcessFloatFeature_again MidpointBestSplit 0
           (SampleFloatFeature [one; three; two]) (TFullSubset 3)
           (TIndexedSubset [0%nat]) (SampleOptions true false 100 10) false
           (TFullSubset 3) (SampleInfo ENanMode.Min false ∅ ∅));
    [vm_compute; reflexivity|vm_compute; discriminate].
Defined.

(** The sample column without NaN under the Min policy: the Forbidden
    mode is stored. *)
Lemma ProcessFloatFeature_stores_nan_mode_witness :
  exists h q',
    ProcessFloatFeature MidpointBestSplit 0
      (SampleFloatFeature [one; three; two]) (TFullSubset 3)
      (SampleOptions true false 100 10) false (TFullSubset 3)
      (SampleInfo ENanMode.Min false ∅ ∅)
    = Done (h, q') /\
    NanModes q' !! 0%nat = Some ENanMode.Forbidden.
Proof.
  eexists _, _. split; [vm_compute; reflexivity|].
  edestruct (ProcessFloatFeature_stores_nan_mode MidpointBestSplit 0
               (SampleFloatFeature [one; three; two]) (TFullSubset 3)
               (SampleOptions true false 100 10) false (TFullSubset 3)
               (SampleInfo ENanMode.Min false ∅ ∅))
    as (H & _); [vm_compute; reflexivity|].
  exact H.
Defined.

(** The sample column with the CPU format, and then with the GPU format
    alone for a source that is kept. *)
Lemma ProcessFloatFeature_metadata_any_format_witness :
  exists h q',
    ProcessFloatFeature MidpointBestSplit 0
      (SampleFloatFeature [one; three; two]) (TFullSubset 3)
      (SampleOptions true false 100 10) false (TFullSubset 3)
      (SampleInfo ENanMode.Min false ∅ ∅)
    = Done (h, q') /\
    ProcessFloatFeature MidpointBestSplit 0
      (SampleFloatFeature [one; three; two]) (TFullSubset 3)
      (SampleOptions false true 100 10) false (TFullSubset 3)
      (SampleInfo ENanMode.Min false ∅ ∅)
    = Done (TExternalFloatValuesHolder 0 [one; three; two] (TFullSubset 3), q').
Proof.
  eexists _, _. split; [vm_compute; reflexivity|].
  edestruct (ProcessFloatFeature_metadata_any_format MidpointBestSplit 0
               (SampleFloatFeature [one; three; two]) (TFullSubset 3)
               (SampleOptions true false 100 10) false (TFullSubset 3)
               (SampleOptions false true 100 10) false (TFullSubset 3)
               (SampleInfo ENanMode.Min false ∅ ∅))
    as [_ H]; [vm_compute; reflexivity|].
  apply H; reflexivity.
Defined.

(** Two borders selected and none added; 256 borders selected. *)
Lemma CalcBordersAndNanMode_count_witness :
  (length [Midpoint one two; Midpoint two three] + 0 = 2 + 0)%nat /\
  CalcBordersAndNanMode ManyBorders (SampleFloatFeature [one; two])
    (TFullSubset 2) (SampleInfo ENanMode.Min false ∅ ∅)
  = Failed VerifyFailed.
Proof.
  split.
  - apply (proj1 (CalcBordersAndNanMode_count MidpointBestSplit
                    (SampleFloatFeature [one; three; two]) (TFullSubset 3)
                    (SampleInfo ENanMode.Min false ∅ ∅)
                    ltac:(apply (bool_decide_unpack _); vm_compute; exact I))
             ENanMode.Forbidden).
    reflexivity.
  - apply (proj2 (CalcBordersAndNanMode_count ManyBorders
                    (SampleFloatFeature [one; two]) (TFullSubset 2)
                    (SampleInfo ENanMode.Min false ∅ ∅)
                    ltac:(apply (bool_decide_unpack _); vm_compute; exact I))).
    split; [intros [H _]; discriminate H|vm_compute; lia].
Defined.

(** The sample dataset held by its only owner: one slot per feature,
    and the source column of the float feature is gone. *)
Lemma Do_sources_witness :
  exists provider,
    Do MidpointBestSplit SampleSizeAtMost MemoryPerSample CounterUniform
      (SampleOptions true false 100 10)
      (SampleRaw 1 Ordered [one; three; two] [5; 7; 5])
      (SampleInfo ENanMode.Min false ∅ ∅) 0%nat 20
    = Done provider /\
    length (DstFloatFeatures (Data provider)) = 1%nat /\
    SrcFloatFeatures (Data provider) !! 0%nat
      <> Some (Some (SampleFloatFeature [one; three; two])).
Proof.
  eexists. split; [vm_compute; reflexivity|].
  edestruct (Do_sources MidpointBestSplit SampleSizeAtMost
               MemoryPerSample CounterUniform
               (SampleOptions true false 100 10)
               (SampleRaw 1 Ordered [one; three; two] [5; 7; 5])
               (SampleInfo ENanMode.Min false ∅ ∅) 0%nat 20)
    as (Hlen & _ & _ & Hown);
    [vm_compute; reflexivity|].
  split; [exact Hlen|].
  destruct Hown as (Hgone & _); [reflexivity|].
  apply Hgone. reflexivity.
Defined.

(** The sample dataset: the holder in slot 0 carries the id of the float
    column and the full subset of three rows. *)
Lemma Do_filled_slots_witness :
  exists provider h,
    Do MidpointBestSplit SampleSizeAtMost MemoryPerSample CounterUniform
      (SampleOptions true false 100 10)
      (SampleRaw 1 Ordered [one; three; two] [5; 7; 5])
      (SampleInfo ENanMode.Min false ∅ ∅) 0%nat 20
    = Done provider /\
    DstFloatFeatures (Data provider) !! 0%nat = Some (Some h) /\
    FloatHolderSubset h = TFullSubset 3.
Proof.
  eexists. eexists. split; [vm_compute; reflexivity|].
  split; [vm_compute; reflexivity|].
  edestruct (Do_filled_slots MidpointBestSplit SampleSizeAtMost
               MemoryPerSample CounterUniform
               (SampleOptions true false 100 10)
               (SampleRaw 1 Ordered [one; three; two] [5; 7; 5])
               (SampleInfo ENanMode.Min false ∅ ∅) 0%nat 20)
    as (_ & Hfloat & _);
    [vm_compute; reflexivity|].
  edestruct (Hfloat 0%nat) as (_ & src & _ & _ & Hsub);
    [vm_compute; reflexivity|].
  exact Hsub.
Defined.

(** The sample dataset: the float feature and the categorical feature
    are both processed. *)
Lemma Do_processes_available_witness :
  exists provider,
    Do MidpointBestSplit SampleSizeAtMost MemoryPerSample CounterUniform
      (SampleOptions true false 100 10)
      (SampleRaw 1 Ordered [one; three; two] [5; 7; 5])
      (SampleInfo ENanMode.Min false ∅ ∅) 0%nat 20
    = Done provider /\
    HasNanMode (QuantizedFeaturesInfo (Data provider)) 0 = true /\
    is_Some (CatFeaturesPerfectHash (QuantizedFeaturesInfo (Data provider))
               !! 0%nat).
Proof.
  eexists. split; [vm_compute; reflexivity|].
  edestruct (Do_processes_available MidpointBestSplit SampleSizeAtMost
               MemoryPerSample CounterUniform
               (SampleOptions true false 100 10)
               (SampleRaw 1 Ordered [one; three; two] [5; 7; 5])
               (SampleInfo ENanMode.Min false ∅ ∅) 0%nat 20)
    as (Hfloat & Hcat);
    [vm_compute; reflexivity|].
  split.
  - edestruct (Hfloat 0%nat) as (_ & Hmode); [reflexivity|reflexivity|].
    exact Hmode.
  - edestruct (Hcat 0%nat) as (_ & Hhash); [reflexivity|reflexivity|].
    exact Hhash.
Defined.

(** The sample dataset with the nan mode Max stored for feature 5, which
    the layout of the data does not have: it is still stored after the
    run, and the border count of the options is the configured one. *)
Lemma Do_metadata_witness :
  exists provider,
    Do MidpointBestSplit SampleSizeAtMost MemoryPerSample CounterUniform
      (SampleOptions true false 100 10)
      (SampleRaw 1 Ordered [one; three; two] [5; 7; 5])
      (SampleInfo ENanMode.Min false {[ 5%nat := ENanMode.Max ]} ∅) 0%nat 20
    = Done provider /\
    NanModes (QuantizedFeaturesInfo (Data provider)) !! 5%nat
      = Some ENanMode.Max /\
    BorderCount
      (FloatFeatureBinarization (QuantizedFeaturesInfo (Data provider)))
      = 4%nat.
Proof.
  eexists. split; [vm_compute; reflexivity|].
  edestruct (Do_metadata MidpointBestSplit SampleSizeAtMost
               MemoryPerSample CounterUniform
               (SampleOptions true false 100 10)
               (SampleRaw 1 Ordered [one; three; two] [5; 7; 5])
               (SampleInfo ENanMode.Min false {[ 5%nat := ENanMode.Max ]} ∅)
               0%nat 20)
    as (_ & Hbin & _ & Hmodes & _);
    [vm_compute; reflexivity|].
  split.
  - apply Hmodes. reflexivity.
  - rewrite Hbin. reflexivity.
Defined.

(** Three rounds over five objects with the counting generator: the
    swaps stay inside the vector. *)
Lemma PartialShuffle_in_bounds_witness :
  Forall (fun '(i, j) => (i <= j < 5)%nat)
    (PartialShuffleSwaps CounterUniform 5 (seq 0 3) 0%nat).
Proof.
  apply (proj1 (PartialShuffle_in_bounds CounterUniform 5 3 0%nat
                  (fun r n Hn => Nat.mod_upper_bound (7 * r + 3) n
                                   (Nat.neq_sym _ _ (Nat.lt_neq _ _ Hn)))
                  ltac:(lia))).
Defined.

(** Two rounds and four rounds over five objects from the same
    generator: the sample of two is the front of the sample of four. *)
Lemma PartialShuffle_prefix_witness :
  take 2
    (take 4
       (fold_left (PartialShuffleStep CounterUniform 5) (seq 0 4)
          (seq 0 5, 0%nat)).1)
  = take 2
      (fold_left (PartialShuffleStep CounterUniform 5) (seq 0 2)
         (seq 0 5, 0%nat)).1.
Proof.
  apply (PartialShuffle_prefix CounterUniform 5 2 4 (seq 0 5) 0%nat). lia.
Defined.

